(** * dc-metro-google-action: the WMATA aggregation module

    A shallow embedding of [functions/src/wmata.ts]: the three exported
    async functions [fetchIncidents], [fetchTrainTimetable] and
    [fetchBusTimetable], over a small model of the JavaScript values that
    [response.json()] hands back, with the network as an oracle and the
    helpers imported from ['./util'] as an interface. *)

From Stdlib Require Import ZArith List String Ascii Bool Lia DecimalString.
Import ListNotations.
Open Scope string_scope.
Set Warnings "-register-all".

(** ** JavaScript values *)

Module JS.

(** What [JSON.parse] produces, plus [undefined] (the value of a missing
    property).  Numbers are the integers: the module under study only
    tests them for truthiness and interpolates them into URLs.  An object
    is the list of its own properties; the first binding of a key is the
    one a property read sees. *)
Inductive value : Type :=
| VUndefined
| VNull
| VBool (b : bool)
| VNum (n : Z)
| VStr (s : string)
| VArr (items : list value)
| VObj (props : list (string * value)).

(** What a [catch] clause can receive. *)
Inductive error : Type :=
| TypeError
| ReferenceError
| FetchError
| HelperError.

Definition Exc (A : Type) : Type := (error + A)%type.

(** ToBoolean. *)
Definition truthy (v : value) : bool :=
  match v with
  | VUndefined | VNull => false
  | VBool b => b
  | VNum n => negb (n =? 0)%Z
  | VStr s => negb (s =? "")
  | VArr _ | VObj _ => true
  end.

(** [v === 'lit'] against a string literal: only a string with the same
    characters is strictly equal to it. *)
Definition strictEqStr (v : value) (lit : string) : bool :=
  match v with
  | VStr s => (s =? lit)
  | _ => false
  end.

(** [v === null]. *)
Definition isNull (v : value) : bool :=
  match v with
  | VNull => true
  | _ => false
  end.

Fixpoint assoc (k : string) (props : list (string * value)) : option value :=
  match props with
  | [] => None
  | (k', v) :: rest => if (k' =? k) then Some v else assoc k rest
  end.

(** [v.k] for a key [k] that no built-in prototype defines (every key the
    module reads is such a key): a TypeError on [undefined] and [null],
    the own property of an object, [undefined] everywhere else. *)
Definition getProp (v : value) (k : string) : Exc value :=
  match v with
  | VUndefined | VNull => inl TypeError
  | VObj props =>
      match assoc k props with
      | Some x => inr x
      | None => inr VUndefined
      end
  | _ => inr VUndefined
  end.

(** The values a property read throws on. *)
Definition nullish (v : value) : bool :=
  match v with
  | VUndefined | VNull => true
  | _ => false
  end.

(** [v.k] as a value, for a [v] that is not nullish. *)
Definition prop (v : value) (k : string) : value :=
  match getProp v k with
  | inr x => x
  | inl _ => VUndefined
  end.

Fixpoint update (k : string) (x : value) (props : list (string * value))
  : list (string * value) :=
  match props with
  | [] => [(k, x)]
  | (k', v) :: rest =>
      if (k' =? k) then (k, x) :: rest else (k', v) :: update k x rest
  end.

(** [v.k = x] in strict mode.  The module assigns only to a value whose
    [Trains] property it has just read as an array or a string, which
    makes that value an object; the other cases are the primitives'
    TypeError. *)
Definition setProp (v : value) (k : string) (x : value) : Exc value :=
  match v with
  | VObj props => inr (VObj (update k x props))
  | _ => inl TypeError
  end.

(** ToString, as a template literal applies it. *)
Fixpoint toString (v : value) : string :=
  match v with
  | VUndefined => "undefined"
  | VNull => "null"
  | VBool true => "true"
  | VBool false => "false"
  | VNum n => NilZero.string_of_int (Z.to_int n)
  | VStr s => s
  | VArr items =>
      (fix join (l : list value) : string :=
         match l with
         | [] => ""
         | x :: rest =>
             let sx := match x with
                       | VUndefined | VNull => ""
                       | _ => toString x
                       end in
             match rest with
             | [] => sx
             | _ => sx ++ "," ++ join rest
             end
         end) items
  | VObj _ => "[object Object]"
  end.

(** [recv.concat(arg)]: an array argument is spread, anything else is
    appended as one element; on a string receiver it is string
    concatenation; no other JSON value has a [concat] method. *)
Definition concat (recv arg : value) : Exc value :=
  match recv with
  | VArr xs =>
      inr (VArr (xs ++ match arg with
                       | VArr ys => ys
                       | other => [other]
                       end)%list)
  | VStr s => inr (VStr (s ++ toString arg))
  | _ => inl TypeError
  end.

(** [String.prototype.toLowerCase] on the ASCII letters. *)
Definition lowerAscii (c : ascii) : ascii :=
  let n := nat_of_ascii c in
  if ((65 <=? n) && (n <=? 90))%nat then ascii_of_nat (n + 32) else c.

Fixpoint toLowerCase (s : string) : string :=
  match s with
  | EmptyString => EmptyString
  | String c rest => String (lowerAscii c) (toLowerCase rest)
  end.

(** The character class [\d]. *)
Definition isDigit (c : ascii) : bool :=
  let n := nat_of_ascii c in ((48 <=? n) && (n <=? 57))%nat.

(** [s.replace(/\D/g, '')]: every character outside [\d] is dropped. *)
Fixpoint stripNonDigits (s : string) : string :=
  match s with
  | EmptyString => EmptyString
  | String c rest =>
      if isDigit c then String c (stripNonDigits rest) else stripNonDigits rest
  end.

End JS.

Import JS.

(** ** The effect monad of an async function body

    An [await]ed call either yields a value or throws into the enclosing
    [try]; the requests issued and the helpers called are recorded, in
    order, so that what a run did can be stated. *)

Inductive event : Type :=
| Fetch (url : string)
| Call (fn : string) (args : list value).

Definition trace : Type := list event.

(** The outside world: the parsed JSON body the service answers a GET of
    [url] with, given everything that happened before, or [None] when
    [fetch] or [response.json()] rejects. *)
Definition Net : Type := trace -> string -> option value.

Definition M (A : Type) : Type := trace -> Exc A * trace.

Definition ret {A} (a : A) : M A := fun t => (inr a, t).

Definition bind {A B} (m : M A) (f : A -> M B) : M B :=
  fun t =>
    match m t with
    | (inr a, t') => f a t'
    | (inl e, t') => (inl e, t')
    end.

Definition throw {A} (e : error) : M A := fun t => (inl e, t).

Definition lift {A} (r : Exc A) : M A := fun t => (r, t).

Definition tryCatch {A} (body : M A) (handler : error -> M A) : M A :=
  fun t =>
    match body t with
    | (inr a, t') => (inr a, t')
    | (inl e, t') => handler e t'
    end.

Definition emit (e : event) : M unit := fun t => (inr tt, (t ++ [e])%list).

Declare Scope js_scope.
Delimit Scope js_scope with js.
Notation "x <- m ;; k" := (bind m (fun x => k))
  (at level 61, m at next level, right associativity) : js_scope.
Notation "m ;;; k" := (bind m (fun _ => k))
  (at level 61, right associativity) : js_scope.
Open Scope js_scope.

(** [await (await fetch(url, {method: 'GET'})).json()]. *)
Definition fetchJson (net : Net) (url : string) : M value :=
  fun t =>
    (match net t url with
     | Some body => inr body
     | None => inl FetchError
     end, (t ++ [Fetch url])%list).

(** [recv.filter(cb)] with a callback that may throw. *)
Fixpoint filterM (cb : value -> M bool) (l : list value) : M (list value) :=
  match l with
  | [] => ret []
  | x :: rest =>
      keep <- cb x ;;
      kept <- filterM cb rest ;;
      ret (if keep then x :: kept else kept)
  end.

Definition arrayFilter (cb : value -> M bool) (recv : value) : M value :=
  match recv with
  | VArr items => kept <- filterM cb items ;; ret (VArr kept)
  | _ => throw TypeError
  end.

(** ** The imports of wmata.ts

    [import {stationFuzzySearch, stationPartialSearch, getRelevantIncidents,
    sortPredictions, serviceTypeEnum} from './util'].  The helpers are
    functions of their arguments that return or throw; [serviceTypeEnum]
    is a value. *)
Record Util : Type := {
  stationFuzzySearch : value -> value -> Exc value;
  stationPartialSearch : value -> value -> Exc value;
  getRelevantIncidents : value -> value -> Exc value;
  sortPredictions : value -> Exc value;
  serviceTypeEnum : value
}.

Definition arg (i : nat) (args : list value) : value := nth i args VUndefined.

(** The function names bound in the module's scope, with what each is
    bound to.  A name outside this table is not declared anywhere in
    wmata.ts. *)
Definition imported (U : Util) (name : string)
  : option (list value -> Exc value) :=
  if name =? "stationFuzzySearch" then
    Some (fun args => stationFuzzySearch U (arg 0 args) (arg 1 args))
  else if name =? "stationPartialSearch" then
    Some (fun args => stationPartialSearch U (arg 0 args) (arg 1 args))
  else if name =? "getRelevantIncidents" then
    Some (fun args => getRelevantIncidents U (arg 0 args) (arg 1 args))
  else if name =? "sortPredictions" then
    Some (fun args => sortPredictions U (arg 0 args))
  else None.

(** [name(args)]: resolving an undeclared identifier throws a
    ReferenceError; a bound helper is called, and may itself throw. *)
Definition callHelper (U : Util) (name : string) (args : list value)
  : M value :=
  match imported U name with
  | Some f => emit (Call name args) ;;; lift (f args)
  | None => throw ReferenceError
  end.

(** ** wmata.ts *)

Definition rootUrl : string := "https://api.wmata.com".

Section Wmata.

(** [functions.config().metro.apikey], read once at module load. *)
Variable wmataApiKey : value.
Variable U : Util.
Variable net : Net.

Definition incidentsUrl (transport : value) : string :=
  rootUrl ++ "/Incidents.svc/json/"
    ++ (if strictEqStr transport "train" then "Incidents"
        else if strictEqStr transport "bus" then "BusIncidents"
        else "")
    ++ "?api_key=" ++ toString wmataApiKey.

(** wmata.ts:19-36. *)
Definition fetchIncidents (transport : value) : M value :=
  tryCatch
    (fetchJson net (incidentsUrl transport))
    (fun _ => ret (VArr [])).

Definition stationsUrl : string :=
  rootUrl ++ "/Rail.svc/json/jStations?api_key=" ++ toString wmataApiKey.

Definition predictionUrl (code : value) : string :=
  rootUrl ++ "/StationPrediction.svc/json/GetPrediction/"
    ++ toString code ++ "?api_key=" ++ toString wmataApiKey.

(** wmata.ts:54-59: partial search, then fuzzy search if it found
    nothing. *)
Definition resolveStation (station : string) (stations : value) : M value :=
  let stationName := toLowerCase station in
  stationData <- callHelper U "stationPartialSearch"
                   [VStr stationName; stations] ;;
  if negb (truthy stationData) then
    callHelper U "stationFuzzySearch" [VStr stationName; stations]
  else ret stationData.

(** wmata.ts:71-87: the paired platform's predictions are fetched,
    appended and the whole sorted, only under the guard. *)
Definition mergePlatforms (stationData predictionObj : value) : M value :=
  together <- lift (getProp stationData "StationTogether1") ;;
  if truthy together then
    code2 <- lift (getProp stationData "StationTogether1") ;;
    predictionObjMulti <- fetchJson net (predictionUrl code2) ;;
    trains <- lift (getProp predictionObj "Trains") ;;
    trainsMulti <- lift (getProp predictionObjMulti "Trains") ;;
    both <- lift (concat trains trainsMulti) ;;
    sorted <- callHelper U "sortPredictions" [both] ;;
    lift (setProp predictionObj "Trains" sorted)
  else ret predictionObj.

(** wmata.ts:92-95, the filter's callback, with [&&] short-circuiting. *)
Definition keepPrediction (item : value) : M bool :=
  line <- lift (getProp item "Line") ;;
  if strictEqStr line "None" then ret false else
  line <- lift (getProp item "Line") ;;
  if strictEqStr line "No" then ret false else
  destination <- lift (getProp item "Destination") ;;
  if strictEqStr destination "ssenger" then ret false else
  destination <- lift (getProp item "Destination") ;;
  ret (negb (strictEqStr destination "Train")).

(** wmata.ts:101-117.  The second push reads [lineCode2], as the source
    does. *)
Definition lineCodes (stationData : value) : M (list value) :=
  let lines := [] in
  c1 <- lift (getProp stationData "LineCode1") ;;
  lines <- (if negb (isNull c1) then
              x <- lift (getProp stationData "LineCode1") ;;
              ret (lines ++ [x])%list
            else ret lines) ;;
  c2 <- lift (getProp stationData "LineCode2") ;;
  lines <- (if negb (isNull c2) then
              x <- lift (getProp stationData "lineCode2") ;;
              ret (lines ++ [x])%list
            else ret lines) ;;
  c3 <- lift (getProp stationData "LineCode3") ;;
  lines <- (if negb (isNull c3) then
              x <- lift (getProp stationData "LineCode3") ;;
              ret (lines ++ [x])%list
            else ret lines) ;;
  c4 <- lift (getProp stationData "LineCode4") ;;
  lines <- (if negb (isNull c4) then
              x <- lift (getProp stationData "LineCode4") ;;
              ret (lines ++ [x])%list
            else ret lines) ;;
  ret lines.

(** wmata.ts:61-126, the branch taken when a station was resolved. *)
Definition stationTimetable (stationData : value) : M value :=
  code <- lift (getProp stationData "Code") ;;
  predictionObj <- fetchJson net (predictionUrl code) ;;
  predictionObj <- mergePlatforms stationData predictionObj ;;
  trains <- lift (getProp predictionObj "Trains") ;;
  predictionData <- arrayFilter keepPrediction trains ;;
  lines <- lineCodes stationData ;;
  transport <- lift (getProp (serviceTypeEnum U) "TRAIN") ;;
  incidentData <- fetchIncidents transport ;;
  incidents <- callHelper U "getRelevantIncidents"
                 [VArr lines; incidentData] ;;
  name <- lift (getProp stationData "Name") ;;
  ret (VObj [("stationName", name);
             ("predictions", predictionData);
             ("incidents", incidents)]).

(** wmata.ts:43-133. *)
Definition fetchTrainTimetable (station : string) : M value :=
  tryCatch
    (stations <- fetchJson net stationsUrl ;;
     stationData <- resolveStation station stations ;;
     if truthy stationData then stationTimetable stationData
     else ret VNull)
    (fun _ => ret (VArr [])).

Definition busPredictionUrl (stopId : string) : string :=
  rootUrl ++ "/NextBusService.svc/json/jPredictions?StopID=" ++ stopId
    ++ "&api_key=" ++ toString wmataApiKey.

(** wmata.ts:140-165.  [getRelevantBusIncidents] is called as written:
    the name is neither imported nor declared in the module. *)
Definition fetchBusTimetable (stop : string) : M value :=
  tryCatch
    (let sanitizedStopId := stripNonDigits stop in
     predictionObj <- fetchJson net (busPredictionUrl sanitizedStopId) ;;
     transport <- lift (getProp (serviceTypeEnum U) "BUS") ;;
     incidentData <- fetchIncidents transport ;;
     incidents <- callHelper U "getRelevantBusIncidents" [] ;;
     stopName <- lift (getProp predictionObj "StopName") ;;
     predictions <- lift (getProp predictionObj "Predictions") ;;
     ret (VObj [("stopName", stopName);
                ("predictions", predictions);
                ("incidents", incidents)]))
    (fun _ => ret (VArr [])).

End Wmata.

(** ** The helpers of util.ts, from the specification

    util.ts is not part of the sources at hand.  The definitions of this
    module follow the specification's description of each helper (sections
    4.1 to 4.3); what the specification leaves open (the similarity score
    and its threshold, the delimiter of the affected-lines field) is a
    parameter. *)

Module SpecUtil.

(** [s.startsWith(start)]. *)
Fixpoint startsWith (s start : string) {struct start} : bool :=
  match start with
  | EmptyString => true
  | String a start' =>
      match s with
      | EmptyString => false
      | String b s' => Ascii.eqb a b && startsWith s' start'
      end
  end.

(** [hay.includes(needle)]. *)
Fixpoint includes (hay needle : string) : bool :=
  startsWith hay needle ||
  match hay with
  | EmptyString => false
  | String _ rest => includes rest needle
  end.

Definition stationName (item : value) : option string :=
  match getProp item "Name" with
  | inr (VStr n) => Some n
  | _ => None
  end.

(** Modelled from the spec: the matching rule of the partial search of
    util.ts (section 4.1): the name, case-insensitively, contains the
    query, or the query contains the name. *)
Definition partialMatch (query : string) (item : value) : bool :=
  match stationName item with
  | Some n => includes (toLowerCase n) query || includes query (toLowerCase n)
  | None => false
  end.

(** Modelled from the spec: [stationPartialSearch] of util.ts (section
    4.1): the first record, in reference-data order, that matches; never
    throws. *)
Definition stationPartialSearch (query stations : value) : Exc value :=
  match query, stations with
  | VStr q, VArr items =>
      match find (partialMatch q) items with
      | Some item => inr item
      | None => inr VUndefined
      end
  | _, _ => inr VUndefined
  end.

Section Fuzzy.

Variable similarity : string -> string -> nat.
Variable threshold : nat.

Definition score (query : string) (item : value) : option nat :=
  match stationName item with
  | Some n => Some (similarity query (toLowerCase n))
  | None => None
  end.

(** The best record so far and its score; a later record replaces it only
    with a strictly higher score. *)
Fixpoint best (query : string) (items : list value)
  (acc : option (nat * value)) : option (nat * value) :=
  match items with
  | [] => acc
  | item :: rest =>
      let acc' :=
        match score query item, acc with
        | Some s, Some (s0, _) => if (s0 <? s)%nat then Some (s, item) else acc
        | Some s, None => Some (s, item)
        | None, _ => acc
        end in
      best query rest acc'
  end.

(** Modelled from the spec: [stationFuzzySearch] of util.ts (section 4.1):
    the highest-scoring record if it clears the threshold, the first one
    at equal score; never throws. *)
Definition stationFuzzySearch (query stations : value) : Exc value :=
  match query, stations with
  | VStr q, VArr items =>
      match best q items None with
      | Some (s, item) => if (threshold <=? s)%nat then inr item
                          else inr VUndefined
      | None => inr VUndefined
      end
  | _, _ => inr VUndefined
  end.

End Fuzzy.

Fixpoint digitsValue (s : string) (acc : nat) : option nat :=
  match s with
  | EmptyString => Some acc
  | String c rest =>
      if isDigit c then digitsValue rest (10 * acc + (nat_of_ascii c - 48))
      else None
  end.

(** Modelled from the spec: the order of the minutes field used by
    [sortPredictions] of util.ts (section 4.2): boarding before arriving
    before every number of minutes.  A value the specification does not
    place has no rank and sorts last. *)
Definition minutesRank (item : value) : option nat :=
  match getProp item "Min" with
  | inr (VStr m) =>
      if m =? "BRD" then Some 0
      else if m =? "ARR" then Some 1
      else if m =? "" then None
      else match digitsValue m 0 with
           | Some n => Some (2 + n)
           | None => None
           end
  | _ => None
  end.

Definition rankLeb (a b : option nat) : bool :=
  match a, b with
  | Some x, Some y => (x <=? y)%nat
  | Some _, None => true
  | None, Some _ => false
  | None, None => true
  end.

Definition minutesLeb (x y : value) : bool :=
  rankLeb (minutesRank x) (minutesRank y).

Fixpoint insertByMinutes (x : value) (l : list value) : list value :=
  match l with
  | [] => [x]
  | y :: rest =>
      if minutesLeb x y then x :: y :: rest
      else y :: insertByMinutes x rest
  end.

Definition sortByMinutes (l : list value) : list value :=
  fold_right insertByMinutes [] l.

(** Modelled from the spec: [sortPredictions] of util.ts (section 4.2):
    ascending by minutes, equal entries in their input order.  The
    specification sorts sequences only; anything else has no [sort]. *)
Definition sortPredictions (predictions : value) : Exc value :=
  match predictions with
  | VArr items => inr (VArr (sortByMinutes items))
  | _ => inl TypeError
  end.

Fixpoint sortedByMinutes (l : list value) : bool :=
  match l with
  | [] => true
  | x :: rest =>
      match rest with
      | [] => true
      | y :: _ => minutesLeb x y && sortedByMinutes rest
      end
  end.

Section Incidents.

(** The character that joins the codes of an affected-lines field. *)
Variable delim : ascii.

(** The affected-lines field of the given codes. *)
Fixpoint joinWith (codes : list string) : string :=
  match codes with
  | [] => EmptyString
  | code :: rest =>
      match rest with
      | [] => code
      | _ => code ++ String delim (joinWith rest)
      end
  end.

(** [delim] does not occur in [code]. *)
Definition delimFree (code : string) : Prop :=
  ~ In delim (list_ascii_of_string code).

(** The codes joined in [s]. *)
Fixpoint tokens (s : string) : list string :=
  match s with
  | EmptyString => [EmptyString]
  | String c rest =>
      if Ascii.eqb c delim then EmptyString :: tokens rest
      else match tokens rest with
           | [] => [String c EmptyString]
           | tok :: toks => String c tok :: toks
           end
  end.

Definition linesAffected (incident : value) : option string :=
  match getProp incident "LinesAffected" with
  | inr (VStr s) => Some s
  | _ => None
  end.

Definition isToken (s : string) (id : value) : bool :=
  match id with
  | VStr code => existsb (String.eqb code) (tokens s)
  | _ => false
  end.

(** Modelled from the spec: the relevance test of [getRelevantIncidents]
    of util.ts (section 4.3): at least one requested code is one of the
    joined tokens of the incident's affected-lines field. *)
Definition relevantTo (ids : list value) (incident : value) : bool :=
  match linesAffected incident with
  | Some s => existsb (isToken s) ids
  | None => false
  end.

(** Modelled from the spec: the incident filter (section 4.3), one pass
    over the feed, in feed order. *)
Fixpoint relevant (ids : list value) (incidents : list value) : list value :=
  match incidents with
  | [] => []
  | incident :: rest =>
      if relevantTo ids incident then incident :: relevant ids rest
      else relevant ids rest
  end.

(** Modelled from the spec: [getRelevantIncidents] of util.ts (section
    4.3) on the module's values. *)
Definition getRelevantIncidents (ids incidents : value) : Exc value :=
  match ids, incidents with
  | VArr codes, VArr feed => inr (VArr (relevant codes feed))
  | _, _ => inr (VArr [])
  end.

End Incidents.

(** Modelled from the spec: the exports of util.ts that wmata.ts imports;
    [serviceTypeEnum] holds the two transport modes [fetchIncidents]
    tests for. *)
Definition util (similarity : string -> string -> nat) (threshold : nat)
  (delim : ascii) : Util :=
  Build_Util
    (stationFuzzySearch similarity threshold)
    stationPartialSearch
    (getRelevantIncidents delim)
    sortPredictions
    (VObj [("TRAIN", VStr "train"); ("BUS", VStr "bus")]).

End SpecUtil.

(** ** Vocabulary of the statements *)

(** The helper [fn] was called in the course of [tr]. *)
Definition invoked (fn : string) (tr : trace) : Prop :=
  exists args, In (Call fn args) tr.

(** The filter's test on an entry that is an object: the four strict
    inequalities of wmata.ts:93-95. *)
Definition keepb (item : value) : bool :=
  negb (strictEqStr (prop item "Line") "None")
  && negb (strictEqStr (prop item "Line") "No")
  && negb (strictEqStr (prop item "Destination") "ssenger")
  && negb (strictEqStr (prop item "Destination") "Train").

(** The line-code list as the specification words it (sections 3 and
    4.4): the record's non-null values of LineCode1 to LineCode4, in that
    order, duplicates kept. *)
Definition specLineCodes (stationData : value) : list value :=
  filter (fun c => negb (isNull c))
    [prop stationData "LineCode1"; prop stationData "LineCode2";
     prop stationData "LineCode3"; prop stationData "LineCode4"].

(** What wmata.ts:101-117 pushes for one of its four tests: the property
    [read], when the property [tested] is not [null]. *)
Definition pushIf (stationData : value) (tested read : string) : list value :=
  if isNull (prop stationData tested) then [] else [prop stationData read].

Definition pushedLineCodes (stationData : value) : list value :=
  (pushIf stationData "LineCode1" "LineCode1"
   ++ pushIf stationData "LineCode2" "lineCode2"
   ++ pushIf stationData "LineCode3" "LineCode3"
   ++ pushIf stationData "LineCode4" "LineCode4")%list.

(** The aggregated result of the rail path. *)
Definition aggregated (name predictions incidents : value) : value :=
  VObj [("stationName", name);
        ("predictions", predictions);
        ("incidents", incidents)].

(** What [fetchIncidents] hands back for an answer of the incident feed:
    the body, or the empty array of its [catch]. *)
Definition incidentsOrEmpty (answer : option value) : value :=
  match answer with
  | Some body => body
  | None => VArr []
  end.

(** An entry the filter is there to drop (wmata.ts:89-90). *)
Definition sentinel (item : value) : Prop :=
  prop item "Line" = VStr "None" \/ prop item "Line" = VStr "No"
  \/ prop item "Destination" = VStr "ssenger"
  \/ prop item "Destination" = VStr "Train".

(** Every event [m] adds to a trace satisfies [P]. *)
Definition emitsOnly {A} (P : event -> Prop) (m : M A) : Prop :=
  forall t, exists ext, snd (m t) = (t ++ ext)%list /\ Forall P ext.

Definition notFuzzyCall (e : event) : Prop :=
  match e with
  | Call fn _ => fn <> "stationFuzzySearch"
  | Fetch _ => True
  end.

(** [needle] occurs in [hay]. *)
Definition Substring (needle hay : string) : Prop :=
  exists pre post, hay = pre ++ needle ++ post.

(** ** Sample feeds

    The station of the specification's end-to-end example, a station with
    a paired platform, and feeds for them. *)

Module Sample.

Definition apiKey : value := VStr "k".

(** A similarity that only recognises equal names. *)
Definition similarity (query name : string) : nat :=
  if query =? name then 100 else 0.

Definition util : Util := SpecUtil.util similarity 60 ",".

Definition metroCenter : value :=
  VObj [("Code", VStr "A01"); ("Name", VStr "Metro Center");
        ("StationTogether1", VNull);
        ("LineCode1", VStr "RD"); ("LineCode2", VStr "BL");
        ("LineCode3", VNull); ("LineCode4", VNull)].

Definition fortTotten : value :=
  VObj [("Code", VStr "B06"); ("Name", VStr "Fort Totten");
        ("StationTogether1", VStr "E06");
        ("LineCode1", VStr "RD"); ("LineCode2", VNull);
        ("LineCode3", VNull); ("LineCode4", VNull)].

Definition stations : value := VArr [metroCenter; fortTotten].

Definition train (line destination minutes : string) : value :=
  VObj [("Line", VStr line); ("Destination", VStr destination);
        ("Min", VStr minutes)].

Definition glenmont5 : value := train "RD" "Glenmont" "5".
Definition shadyGrove2 : value := train "RD" "Shady Gr" "2".
Definition noPassengers : value := train "No" "No Passenger" "3".
Definition greenbeltBRD : value := train "GR" "Greenbelt" "BRD".

Definition incident (lines description : string) : value :=
  VObj [("LinesAffected", VStr lines); ("Description", VStr description)].

Definition redOrange : value := incident "RD,OR" "Single tracking".
Definition blueOnly : value := incident "BL" "Delays".
Definition greenOnly : value := incident "GR" "Delays".

Definition incidents : value := VArr [redOrange; blueOnly; greenOnly].

Definition busPredictions : value :=
  VObj [("StopName", VStr "K St + 13th St");
        ("Predictions",
         VArr [VObj [("RouteID", VStr "80"); ("Minutes", VNum 4)]])].

(** Every feed answers. *)
Definition net : Net := fun _ url =>
  if url =? stationsUrl apiKey then Some stations
  else if url =? predictionUrl apiKey (VStr "A01") then
    Some (VObj [("Trains", VArr [glenmont5; noPassengers; shadyGrove2])])
  else if url =? predictionUrl apiKey (VStr "B06") then
    Some (VObj [("Trains", VArr [glenmont5; noPassengers])])
  else if url =? predictionUrl apiKey (VStr "E06") then
    Some (VObj [("Trains", VArr [greenbeltBRD])])
  else if url =? incidentsUrl apiKey (VStr "train") then Some incidents
  else if url =? incidentsUrl apiKey (VStr "bus") then Some (VArr [])
  else if url =? busPredictionUrl apiKey "3004076" then Some busPredictions
  else None.

(** The prediction feed is down; the other feeds answer. *)
Definition netPredictionsDown : Net := fun _ url =>
  if url =? stationsUrl apiKey then Some stations
  else if url =? incidentsUrl apiKey (VStr "train") then Some incidents
  else None.

(** The incident feed is down; the other feeds answer. *)
Definition netIncidentsDown : Net := fun t url =>
  if url =? incidentsUrl apiKey (VStr "train") then None
  else net t url.

(** Nothing answers. *)
Definition netDown : Net := fun _ _ => None.

End Sample.

(** ** Vocabulary of the further statements *)

(** What [concat] appends for an argument (wmata.ts:85). *)
Definition spread (arg : value) : list value :=
  match arg with
  | VArr ys => ys
  | other => [other]
  end.

Definition isFetch (e : event) : bool :=
  match e with
  | Fetch _ => true
  | Call _ _ => false
  end.

Definition isCall (e : event) : bool := negb (isFetch e).

(** The number of events of [tr] that [p] selects. *)
Definition countEvents (p : event -> bool) (tr : trace) : nat :=
  List.length (filter p tr).

(** [m] adds at most [n] events that [p] selects. *)
Definition emitsAtMost {A} (p : event -> bool) (n : nat) (m : M A) : Prop :=
  forall t, exists ext,
    snd (m t) = (t ++ ext)%list /\ countEvents p ext <= n.

(** The requests and helper calls wmata.ts:43-133 contains. *)
Definition railEvent (wmataApiKey : value) (e : event) : Prop :=
  match e with
  | Fetch url =>
      url = stationsUrl wmataApiKey
      \/ (exists code, url = predictionUrl wmataApiKey code)
      \/ (exists transport, url = incidentsUrl wmataApiKey transport)
  | Call fn _ =>
      fn = "stationPartialSearch" \/ fn = "stationFuzzySearch"
      \/ fn = "sortPredictions" \/ fn = "getRelevantIncidents"
  end.

(** ** Sample faults *)

Module Faults.

(** The paired platform's prediction feed is down. *)
Definition netSecondaryDown : Net := fun t url =>
  if url =? predictionUrl Sample.apiKey (VStr "E06") then None
  else Sample.net t url.

(** The prediction feed answers with an error body. *)
Definition denied : value :=
  VObj [("statusCode", VNum 401); ("message", VStr "Access denied")].

Definition netDenied : Net := fun t url =>
  if url =? predictionUrl Sample.apiKey (VStr "A01") then Some denied
  else Sample.net t url.

(** The prediction feed lists a [null] entry. *)
Definition netNullEntry : Net := fun t url =>
  if url =? predictionUrl Sample.apiKey (VStr "A01") then
    Some (VObj [("Trains", VArr [Sample.glenmont5; VNull])])
  else Sample.net t url.

(** Helpers that throw. *)
Definition utilPartialThrows : Util :=
  Build_Util
    (stationFuzzySearch Sample.util)
    (fun _ _ => inl HelperError)
    (getRelevantIncidents Sample.util)
    (sortPredictions Sample.util)
    (serviceTypeEnum Sample.util).

Definition utilFuzzyThrows : Util :=
  Build_Util
    (fun _ _ => inl HelperError)
    (stationPartialSearch Sample.util)
    (getRelevantIncidents Sample.util)
    (sortPredictions Sample.util)
    (serviceTypeEnum Sample.util).

Definition utilFilterThrows : Util :=
  Build_Util
    (stationFuzzySearch Sample.util)
    (stationPartialSearch Sample.util)
    (fun _ _ => inl HelperError)
    (sortPredictions Sample.util)
    (serviceTypeEnum Sample.util).

Definition utilSortThrows : Util :=
  Build_Util
    (stationFuzzySearch Sample.util)
    (stationPartialSearch Sample.util)
    (getRelevantIncidents Sample.util)
    (fun _ => inl HelperError)
    (serviceTypeEnum Sample.util).

End Faults.

(** * Properties *)

(** ** Stepping through a body *)

Lemma bind_inr {A B} (m : M A) (f : A -> M B) t a t1 :
  m t = (inr a, t1) -> bind m f t = f a t1.
Proof. unfold bind; intros ->; reflexivity. Qed.

Lemma bind_inl {A B} (m : M A) (f : A -> M B) t e t1 :
  m t = (inl e, t1) -> bind m f t = (inl e, t1).
Proof. unfold bind; intros ->; reflexivity. Qed.

Lemma bind_inv {A B} (m : M A) (f : A -> M B) t b t' :
  bind m f t = (inr b, t') ->
  exists a t1, m t = (inr a, t1) /\ f a t1 = (inr b, t').
Proof.
  unfold bind. destruct (m t) as [[e | a] t1]; intros H.
  - discriminate.
  - exists a, t1. split; [reflexivity | exact H].
Qed.

Lemma lift_inv {A} (r : Exc A) t a t' :
  lift r t = (inr a, t') -> r = inr a /\ t' = t.
Proof. unfold lift; intros H; inversion H; subst; split; reflexivity. Qed.

Lemma ret_inv {A} (a b : A) t t' :
  ret a t = (inr b, t') -> a = b /\ t' = t.
Proof. unfold ret; intros H; inversion H; subst; split; reflexivity. Qed.

(** A [try] whose [catch] returns a constant always returns. *)
Lemma tryCatch_returns {A} (body : M A) (a0 : A) t :
  exists a t', tryCatch body (fun _ => ret a0) t = (inr a, t').
Proof.
  unfold tryCatch. destruct (body t) as [[e | a] t1].
  - exists a0, t1. reflexivity.
  - exists a, t1. reflexivity.
Qed.

Lemma tryCatch_inl {A} (body : M A) (a0 : A) t e t1 :
  body t = (inl e, t1) ->
  tryCatch body (fun _ => ret a0) t = (inr a0, t1).
Proof. unfold tryCatch; intros ->; reflexivity. Qed.

Lemma tryCatch_inr {A} (body : M A) (h : error -> M A) t a t1 :
  body t = (inr a, t1) -> tryCatch body h t = (inr a, t1).
Proof. unfold tryCatch; intros ->; reflexivity. Qed.

Lemma tryCatch_snd {A} (body : M A) (a0 : A) t :
  snd (tryCatch body (fun _ => ret a0) t) = snd (body t).
Proof. unfold tryCatch. destruct (body t) as [[e | a] t1]; reflexivity. Qed.

(** ** What a body can add to the trace *)

Section Emits.

Context {A B : Type} (P : event -> Prop).

Lemma emitsOnly_ret (a : A) : emitsOnly P (ret a).
Proof. intros t. exists []. rewrite app_nil_r. split; [reflexivity | constructor]. Qed.

Lemma emitsOnly_throw (e : error) : emitsOnly P (@throw A e).
Proof. intros t. exists []. rewrite app_nil_r. split; [reflexivity | constructor]. Qed.

Lemma emitsOnly_lift (r : Exc A) : emitsOnly P (lift r).
Proof. intros t. exists []. rewrite app_nil_r. split; [reflexivity | constructor]. Qed.

Lemma emitsOnly_bind (m : M A) (f : A -> M B) :
  emitsOnly P m -> (forall a, emitsOnly P (f a)) -> emitsOnly P (bind m f).
Proof.
  intros Hm Hf t. destruct (Hm t) as (ext1 & E1 & F1). unfold bind.
  destruct (m t) as [[e | a] t1]; simpl in E1; subst t1.
  - exists ext1. split; [reflexivity | exact F1].
  - destruct (Hf a (t ++ ext1)%list) as (ext2 & E2 & F2).
    exists (ext1 ++ ext2)%list. rewrite E2, app_assoc.
    split; [reflexivity | apply Forall_app; split; assumption].
Qed.

Lemma emitsOnly_tryCatch (m : M A) (h : error -> M A) :
  emitsOnly P m -> (forall e, emitsOnly P (h e)) -> emitsOnly P (tryCatch m h).
Proof.
  intros Hm Hh t. destruct (Hm t) as (ext1 & E1 & F1). unfold tryCatch.
  destruct (m t) as [[e | a] t1]; simpl in E1; subst t1.
  - destruct (Hh e (t ++ ext1)%list) as (ext2 & E2 & F2).
    exists (ext1 ++ ext2)%list. rewrite E2, app_assoc.
    split; [reflexivity | apply Forall_app; split; assumption].
  - exists ext1. split; [reflexivity | exact F1].
Qed.

Lemma emitsOnly_if (b : bool) (m1 m2 : M A) :
  emitsOnly P m1 -> emitsOnly P m2 -> emitsOnly P (if b then m1 else m2).
Proof. destruct b; auto. Qed.

End Emits.

Lemma emitsOnly_fetchJson P net url :
  P (Fetch url) -> emitsOnly P (fetchJson net url).
Proof.
  intros HP t. exists [Fetch url]. split; [reflexivity | auto].
Qed.

Lemma emitsOnly_callHelper P U name args :
  P (Call name args) -> emitsOnly P (callHelper U name args).
Proof.
  intros HP. unfold callHelper. destruct (imported U name).
  - apply emitsOnly_bind; [| intros; apply emitsOnly_lift].
    intros t. exists [Call name args]. split; [reflexivity | auto].
  - apply emitsOnly_throw.
Qed.

Lemma emitsOnly_filterM P cb items :
  (forall x, emitsOnly P (cb x)) -> emitsOnly P (filterM cb items).
Proof.
  intros Hcb. induction items as [| x l IH]; simpl.
  - apply emitsOnly_ret.
  - apply emitsOnly_bind; [apply Hcb | intros keep].
    apply emitsOnly_bind; [exact IH | intros kept; apply emitsOnly_ret].
Qed.

Ltac emits_step :=
  first
    [ apply emitsOnly_ret
    | apply emitsOnly_throw
    | apply emitsOnly_lift
    | apply emitsOnly_fetchJson; simpl; auto
    | apply emitsOnly_callHelper; simpl; congruence
    | apply emitsOnly_filterM; intros
    | apply emitsOnly_tryCatch; [| intros]
    | apply emitsOnly_bind; [| intros]
    | apply emitsOnly_if ].

(** ** Values *)

Lemma getProp_prop v k : nullish v = false -> getProp v k = inr (prop v k).
Proof.
  unfold prop. destruct v; simpl; try discriminate; intros _; try reflexivity.
  destruct (assoc k props); reflexivity.
Qed.

Lemma truthy_not_nullish v : truthy v = true -> nullish v = false.
Proof. destruct v; simpl; intros H; try reflexivity; discriminate. Qed.

Lemma getProp_nullish v k : nullish v = true -> getProp v k = inl TypeError.
Proof. destruct v; simpl; intros H; try discriminate; reflexivity. Qed.

Lemma assoc_update k x props : assoc k (update k x props) = Some x.
Proof.
  induction props as [| [k' v] rest IH]; simpl.
  - rewrite String.eqb_refl. reflexivity.
  - destruct (k' =? k) eqn:E; simpl.
    + rewrite String.eqb_refl. reflexivity.
    + rewrite E. exact IH.
Qed.

(** After [v.k = x], [v.k] is [x]. *)
Lemma getProp_setProp v k x v' :
  setProp v k x = inr v' -> getProp v' k = inr x.
Proof.
  destruct v; simpl; intros H; try discriminate.
  inversion H; subst. simpl. rewrite assoc_update. reflexivity.
Qed.

Lemma getProp_inr_not_nullish v k x : getProp v k = inr x -> nullish v = false.
Proof. destruct v; simpl; intros H; try reflexivity; discriminate. Qed.

(** ** The bus path *)

Section BusPath.

Variable wmataApiKey : value.
Variable U : Util.
Variable net : Net.

Lemma fetchIncidents_run transport t :
  fetchIncidents wmataApiKey net transport t
  = (inr (incidentsOrEmpty (net t (incidentsUrl wmataApiKey transport))),
     (t ++ [Fetch (incidentsUrl wmataApiKey transport)])%list).
Proof.
  unfold fetchIncidents, tryCatch, fetchJson.
  destruct (net t (incidentsUrl wmataApiKey transport)); reflexivity.
Qed.

(** The body of [fetchBusTimetable] never reaches its [return]: whatever
    the feeds answer, the call of the undeclared name throws at the
    latest. *)
Lemma fetchBusTimetable_empty stop t :
  fst (fetchBusTimetable wmataApiKey U net stop t) = inr (VArr []).
Proof.
  unfold fetchBusTimetable, tryCatch, bind, fetchJson.
  destruct (net t _); [| reflexivity].
  unfold lift at 1.
  destruct (getProp (serviceTypeEnum U) "BUS"); [reflexivity |].
  rewrite fetchIncidents_run. reflexivity.
Qed.

Lemma fetchBusTimetable_first_fetch stop t :
  exists rest,
    snd (fetchBusTimetable wmataApiKey U net stop t)
    = (t ++ Fetch (busPredictionUrl wmataApiKey (stripNonDigits stop)) :: rest)%list.
Proof.
  unfold fetchBusTimetable, tryCatch, bind, fetchJson.
  destruct (net t _).
  - unfold lift at 1.
    destruct (getProp (serviceTypeEnum U) "BUS").
    + exists []. reflexivity.
    + rewrite fetchIncidents_run.
      eexists. simpl. rewrite <- app_assoc. reflexivity.
  - exists []. reflexivity.
Qed.

End BusPath.

Lemma stripNonDigits_filter s :
  stripNonDigits s
  = string_of_list_ascii (filter isDigit (list_ascii_of_string s)).
Proof.
  induction s as [| c s IH]; simpl.
  - reflexivity.
  - destruct (isDigit c); simpl; rewrite IH; reflexivity.
Qed.

Lemma isDigit_spec c :
  isDigit c = true <-> In c (list_ascii_of_string "0123456789").
Proof.
  destruct c as [[] [] [] [] [] [] [] []]; vm_compute; split; intros H;
    try discriminate; try reflexivity;
    intuition discriminate.
Qed.

(** C9: the stop identifier of the bus prediction request is the query
    with every character that is not one of the ten digits removed, the
    digits in their order: the request is the first thing the bus path
    does, its [StopID] is [stripNonDigits stop], which is the query
    filtered by [isDigit]; and the specification's example holds. *)
Theorem bus_stop_id_digits_only :
  forall (wmataApiKey : value) (U : Util) (net : Net) (stop : string)
         (t : trace),
    (exists rest,
        snd (fetchBusTimetable wmataApiKey U net stop t)
        = (t ++ Fetch (rootUrl
                       ++ "/NextBusService.svc/json/jPredictions?StopID="
                       ++ stripNonDigits stop
                       ++ "&api_key=" ++ toString wmataApiKey) :: rest)%list)
    /\ stripNonDigits stop
       = string_of_list_ascii (filter isDigit (list_ascii_of_string stop))
    /\ (forall c, isDigit c = true
                  <-> In c (list_ascii_of_string "0123456789"))
    /\ stripNonDigits "stop #3004-076" = "3004076".
Proof.
  intros key U net stop t. repeat split.
  - apply fetchBusTimetable_first_fetch.
  - apply stripNonDigits_filter.
  - apply isDigit_spec.
  - apply isDigit_spec.
Qed.

(** C1: at a stop whose prediction feed answers with a stop name and a
    prediction, the bus path returns the empty array of its [catch], not
    an object with the stop name and the predictions: the undeclared
    [getRelevantBusIncidents] throws after both feeds were read. *)
Theorem bus_timetable_collapses_to_empty :
  Sample.net [] (busPredictionUrl Sample.apiKey "3004076")
  = Some Sample.busPredictions
  /\ imported Sample.util "getRelevantBusIncidents" = None
  /\ fetchBusTimetable Sample.apiKey Sample.util Sample.net "3004076" []
     = (inr (VArr []),
        [Fetch (busPredictionUrl Sample.apiKey "3004076");
         Fetch (incidentsUrl Sample.apiKey (VStr "bus"))]).
Proof. repeat split. Qed.

(** ** The rail path *)

Section RailPath.

Variable wmataApiKey : value.
Variable U : Util.
Variable net : Net.

Lemma callHelper_partial a b t :
  callHelper U "stationPartialSearch" [a; b] t
  = (stationPartialSearch U a b,
     (t ++ [Call "stationPartialSearch" [a; b]])%list).
Proof. reflexivity. Qed.

Lemma callHelper_fuzzy a b t :
  callHelper U "stationFuzzySearch" [a; b] t
  = (stationFuzzySearch U a b,
     (t ++ [Call "stationFuzzySearch" [a; b]])%list).
Proof. reflexivity. Qed.

Lemma callHelper_relevant a b t :
  callHelper U "getRelevantIncidents" [a; b] t
  = (getRelevantIncidents U a b,
     (t ++ [Call "getRelevantIncidents" [a; b]])%list).
Proof. reflexivity. Qed.

Lemma callHelper_sort a t :
  callHelper U "sortPredictions" [a] t
  = (sortPredictions U a, (t ++ [Call "sortPredictions" [a]])%list).
Proof. reflexivity. Qed.

(** The resolver when the partial search finds a station. *)
Lemma resolveStation_hit station stations sd t :
  stationPartialSearch U (VStr (toLowerCase station)) stations = inr sd ->
  truthy sd = true ->
  resolveStation U station stations t
  = (inr sd,
     (t ++ [Call "stationPartialSearch"
              [VStr (toLowerCase station); stations]])%list).
Proof.
  intros Hp Ht. unfold resolveStation.
  erewrite bind_inr by (rewrite callHelper_partial, Hp; reflexivity).
  rewrite Ht. reflexivity.
Qed.

(** The resolver when the partial search finds nothing. *)
Lemma resolveStation_miss station stations r t :
  stationPartialSearch U (VStr (toLowerCase station)) stations = inr r ->
  truthy r = false ->
  resolveStation U station stations t
  = (stationFuzzySearch U (VStr (toLowerCase station)) stations,
     (t ++ [Call "stationPartialSearch"
              [VStr (toLowerCase station); stations];
            Call "stationFuzzySearch"
              [VStr (toLowerCase station); stations]])%list).
Proof.
  intros Hp Ht. unfold resolveStation.
  erewrite bind_inr by (rewrite callHelper_partial, Hp; reflexivity).
  rewrite Ht. cbn [negb].
  rewrite callHelper_fuzzy, <- app_assoc. reflexivity.
Qed.

(** The resolver when the partial search throws. *)
Lemma resolveStation_throw station stations e t :
  stationPartialSearch U (VStr (toLowerCase station)) stations = inl e ->
  resolveStation U station stations t
  = (inl e,
     (t ++ [Call "stationPartialSearch"
              [VStr (toLowerCase station); stations]])%list).
Proof.
  intros Hp. unfold resolveStation.
  erewrite bind_inl by (rewrite callHelper_partial, Hp; reflexivity).
  reflexivity.
Qed.

(** A run in which neither search finds a station: one request, two
    helper calls, and [null]. *)
Lemma not_found_run station stations r1 r2 t :
  net t (stationsUrl wmataApiKey) = Some stations ->
  stationPartialSearch U (VStr (toLowerCase station)) stations = inr r1 ->
  truthy r1 = false ->
  stationFuzzySearch U (VStr (toLowerCase station)) stations = inr r2 ->
  truthy r2 = false ->
  fetchTrainTimetable wmataApiKey U net station t
  = (inr VNull,
     (t ++ [Fetch (stationsUrl wmataApiKey);
            Call "stationPartialSearch"
              [VStr (toLowerCase station); stations];
            Call "stationFuzzySearch"
              [VStr (toLowerCase station); stations]])%list).
Proof.
  intros Hnet Hp Hr1 Hf Hr2. unfold fetchTrainTimetable.
  apply tryCatch_inr.
  erewrite bind_inr by (unfold fetchJson; rewrite Hnet; reflexivity).
  erewrite bind_inr
    by (rewrite (resolveStation_miss _ _ _ _ Hp Hr1), Hf; reflexivity).
  rewrite Hr2, <- app_assoc. reflexivity.
Qed.

(** A failure of the station feed: the [catch] answers. *)
Lemma stations_down_run station t :
  net t (stationsUrl wmataApiKey) = None ->
  fetchTrainTimetable wmataApiKey U net station t
  = (inr (VArr []), (t ++ [Fetch (stationsUrl wmataApiKey)])%list).
Proof.
  intros Hnet. unfold fetchTrainTimetable.
  eapply tryCatch_inl.
  erewrite bind_inl by (unfold fetchJson; rewrite Hnet; reflexivity).
  reflexivity.
Qed.

(** The filter's callback on an entry it can read. *)
Lemma keepPrediction_run item t :
  nullish item = false -> keepPrediction item t = (inr (keepb item), t).
Proof.
  intros Hn. unfold keepPrediction, keepb, bind, lift.
  rewrite !(getProp_prop _ _ Hn).
  destruct (strictEqStr (prop item "Line") "None"); [reflexivity |].
  destruct (strictEqStr (prop item "Line") "No"); [reflexivity |].
  destruct (strictEqStr (prop item "Destination") "ssenger"); reflexivity.
Qed.

Lemma keepPrediction_throw item t :
  nullish item = true -> keepPrediction item t = (inl TypeError, t).
Proof.
  intros Hn. unfold keepPrediction, bind, lift.
  rewrite (getProp_nullish _ _ Hn). reflexivity.
Qed.

Lemma filterM_run items t :
  Forall (fun item => nullish item = false) items ->
  filterM keepPrediction items t = (inr (filter keepb items), t).
Proof.
  induction 1 as [| x l Hx _ IH]; simpl.
  - reflexivity.
  - erewrite bind_inr by (apply keepPrediction_run; exact Hx).
    erewrite bind_inr by exact IH.
    reflexivity.
Qed.

Lemma filterM_inv items t kept t' :
  filterM keepPrediction items t = (inr kept, t') ->
  kept = filter keepb items /\ t' = t
  /\ Forall (fun item => nullish item = false) items.
Proof.
  revert kept. induction items as [| x l IH]; simpl; intros kept H.
  - apply ret_inv in H. destruct H as [<- ->]. auto.
  - destruct (nullish x) eqn:Hx.
    + erewrite bind_inl in H by (apply keepPrediction_throw; exact Hx).
      discriminate.
    + erewrite bind_inr in H by (apply keepPrediction_run; exact Hx).
      apply bind_inv in H. destruct H as (k & t1 & Hk & H).
      apply ret_inv in H. destruct H as [<- ->].
      destruct (IH _ Hk) as (-> & -> & Hall). auto.
Qed.

(** wmata.ts:101-117 on a resolved station. *)
Lemma lineCodes_run stationData t :
  nullish stationData = false ->
  lineCodes stationData t = (inr (pushedLineCodes stationData), t).
Proof.
  intros Hn. unfold lineCodes, pushedLineCodes, pushIf, bind, lift.
  rewrite !(getProp_prop _ _ Hn).
  destruct (isNull (prop stationData "LineCode1"));
    destruct (isNull (prop stationData "LineCode2"));
    destruct (isNull (prop stationData "LineCode3"));
    destruct (isNull (prop stationData "LineCode4")); reflexivity.
Qed.

(** Without a paired platform the merge step does nothing. *)
Lemma mergePlatforms_unpaired stationData predictionObj t :
  nullish stationData = false ->
  truthy (prop stationData "StationTogether1") = false ->
  mergePlatforms wmataApiKey U net stationData predictionObj t
  = (inr predictionObj, t).
Proof.
  intros Hn Ht. unfold mergePlatforms, bind, lift.
  rewrite (getProp_prop _ _ Hn), Ht. reflexivity.
Qed.

(** The branch of a resolved station without a paired platform, when
    every entry of the feed can be read and the incident helper
    returns. *)
Lemma stationTimetable_unpaired stationData predictionObj items transport
    incidents t :
  let t1 := (t ++ [Fetch (predictionUrl wmataApiKey
                            (prop stationData "Code"))])%list in
  let incidentData :=
    incidentsOrEmpty (net t1 (incidentsUrl wmataApiKey transport)) in
  nullish stationData = false ->
  truthy (prop stationData "StationTogether1") = false ->
  net t (predictionUrl wmataApiKey (prop stationData "Code"))
  = Some predictionObj ->
  getProp predictionObj "Trains" = inr (VArr items) ->
  Forall (fun item => nullish item = false) items ->
  getProp (serviceTypeEnum U) "TRAIN" = inr transport ->
  getRelevantIncidents U (VArr (pushedLineCodes stationData)) incidentData
  = inr incidents ->
  stationTimetable wmataApiKey U net stationData t
  = (inr (aggregated (prop stationData "Name")
                     (VArr (filter keepb items)) incidents),
     (t1 ++ [Fetch (incidentsUrl wmataApiKey transport);
             Call "getRelevantIncidents"
               [VArr (pushedLineCodes stationData); incidentData]])%list).
Proof.
  intros t1 incidentData Hn Htog Hnet Htrains Hitems Htr Hrel.
  unfold stationTimetable.
  erewrite bind_inr by (unfold lift; rewrite (getProp_prop _ _ Hn); reflexivity).
  erewrite bind_inr by (unfold fetchJson; rewrite Hnet; reflexivity).
  erewrite bind_inr by (apply mergePlatforms_unpaired; assumption).
  erewrite bind_inr by (unfold lift; rewrite Htrains; reflexivity).
  erewrite bind_inr
    by (unfold arrayFilter; erewrite bind_inr by (apply filterM_run; exact Hitems);
        reflexivity).
  erewrite bind_inr by (apply lineCodes_run; exact Hn).
  erewrite bind_inr by (unfold lift; rewrite Htr; reflexivity).
  erewrite bind_inr by (apply fetchIncidents_run).
  erewrite bind_inr by (rewrite callHelper_relevant; fold t1 incidentData;
                        rewrite Hrel; reflexivity).
  erewrite bind_inr by (unfold lift; rewrite (getProp_prop _ _ Hn); reflexivity).
  unfold ret, aggregated. rewrite <- !app_assoc. reflexivity.
Qed.

(** A failure of the prediction feed in the branch of a resolved
    station. *)
Lemma stationTimetable_predictions_down stationData t :
  nullish stationData = false ->
  net t (predictionUrl wmataApiKey (prop stationData "Code")) = None ->
  stationTimetable wmataApiKey U net stationData t
  = (inl FetchError,
     (t ++ [Fetch (predictionUrl wmataApiKey
                     (prop stationData "Code"))])%list).
Proof.
  intros Hn Hnet. unfold stationTimetable.
  erewrite bind_inr by (unfold lift; rewrite (getProp_prop _ _ Hn); reflexivity).
  erewrite bind_inl by (unfold fetchJson; rewrite Hnet; reflexivity).
  reflexivity.
Qed.

(** The rail path around the branch of a resolved station. *)
Lemma fetchTrainTimetable_resolved station stations stationData t t1 :
  net t (stationsUrl wmataApiKey) = Some stations ->
  resolveStation U station stations
    (t ++ [Fetch (stationsUrl wmataApiKey)])%list
  = (inr stationData, t1) ->
  truthy stationData = true ->
  fetchTrainTimetable wmataApiKey U net station t
  = tryCatch (stationTimetable wmataApiKey U net stationData)
             (fun _ => ret (VArr [])) t1.
Proof.
  intros Hnet Hres Htr. unfold fetchTrainTimetable, tryCatch.
  erewrite bind_inr by (unfold fetchJson; rewrite Hnet; reflexivity).
  erewrite bind_inr by exact Hres.
  rewrite Htr. reflexivity.
Qed.

(** What a successful merge step did: nothing, or one more request, one
    [concat] and one call of [sortPredictions]. *)
Lemma mergePlatforms_inv stationData predictionObj t merged t' :
  mergePlatforms wmataApiKey U net stationData predictionObj t
  = (inr merged, t') ->
  (truthy (prop stationData "StationTogether1") = false
   /\ merged = predictionObj /\ t' = t)
  \/ (truthy (prop stationData "StationTogether1") = true
      /\ exists predictionObjMulti both sorted,
          net t (predictionUrl wmataApiKey
                   (prop stationData "StationTogether1"))
          = Some predictionObjMulti
          /\ concat (prop predictionObj "Trains")
                    (prop predictionObjMulti "Trains") = inr both
          /\ sortPredictions U both = inr sorted
          /\ getProp merged "Trains" = inr sorted
          /\ t' = (t ++ [Fetch (predictionUrl wmataApiKey
                                 (prop stationData "StationTogether1"));
                         Call "sortPredictions" [both]])%list).
Proof.
  unfold mergePlatforms. intros H.
  apply bind_inv in H. destruct H as (tg & t1 & Htg & H).
  apply lift_inv in Htg. destruct Htg as [Htg ->].
  pose proof (getProp_inr_not_nullish _ _ _ Htg) as Hn.
  rewrite (getProp_prop _ _ Hn) in Htg. inversion Htg; subst tg; clear Htg.
  destruct (truthy (prop stationData "StationTogether1")) eqn:Ht.
  - right. split; [reflexivity |].
    apply bind_inv in H. destruct H as (c2 & t1 & Hc2 & H).
    apply lift_inv in Hc2. destruct Hc2 as [Hc2 ->].
    rewrite (getProp_prop _ _ Hn) in Hc2. inversion Hc2; subst c2; clear Hc2.
    apply bind_inv in H. destruct H as (pm & t1 & Hpm & H).
    unfold fetchJson in Hpm.
    destruct (net t (predictionUrl wmataApiKey
                       (prop stationData "StationTogether1"))) as [pm' |] eqn:Hnet;
      inversion Hpm; subst pm' t1; clear Hpm.
    apply bind_inv in H. destruct H as (tr & t1 & Htr & H).
    apply lift_inv in Htr. destruct Htr as [Htr ->].
    apply bind_inv in H. destruct H as (trm & t1 & Htrm & H).
    apply lift_inv in Htrm. destruct Htrm as [Htrm ->].
    apply bind_inv in H. destruct H as (both & t1 & Hboth & H).
    apply lift_inv in Hboth. destruct Hboth as [Hboth ->].
    apply bind_inv in H. destruct H as (sorted & t1 & Hsorted & H).
    rewrite callHelper_sort in Hsorted. inversion Hsorted as [[Hs Ht1]].
    apply lift_inv in H. destruct H as [Hset ->].
    exists pm, both, sorted.
    rewrite (getProp_prop _ _ (getProp_inr_not_nullish _ _ _ Htr)) in Htr.
    rewrite (getProp_prop _ _ (getProp_inr_not_nullish _ _ _ Htrm)) in Htrm.
    inversion Htr; inversion Htrm; subst tr trm.
    repeat split; try assumption; try reflexivity.
    + eapply getProp_setProp; exact Hset.
    + rewrite <- Ht1, <- app_assoc. reflexivity.
  - left. apply ret_inv in H. destruct H as [<- ->]. auto.
Qed.

(** What a run of the resolved-station branch that returned did. *)
Lemma stationTimetable_inv stationData t result t' :
  stationTimetable wmataApiKey U net stationData t = (inr result, t') ->
  exists predictionObj merged items incidents t1,
    nullish stationData = false
    /\ net t (predictionUrl wmataApiKey (prop stationData "Code"))
       = Some predictionObj
    /\ mergePlatforms wmataApiKey U net stationData predictionObj
         (t ++ [Fetch (predictionUrl wmataApiKey (prop stationData "Code"))])%list
       = (inr merged, t1)
    /\ getProp merged "Trains" = inr (VArr items)
    /\ Forall (fun item => nullish item = false) items
    /\ result = aggregated (prop stationData "Name")
                           (VArr (filter keepb items)) incidents.
Proof.
  unfold stationTimetable. intros H.
  apply bind_inv in H. destruct H as (code & t0 & Hcode & H).
  apply lift_inv in Hcode. destruct Hcode as [Hcode ->].
  pose proof (getProp_inr_not_nullish _ _ _ Hcode) as Hn.
  rewrite (getProp_prop _ _ Hn) in Hcode. inversion Hcode; subst code; clear Hcode.
  apply bind_inv in H. destruct H as (p0 & t0 & Hp0 & H).
  unfold fetchJson in Hp0.
  destruct (net t (predictionUrl wmataApiKey (prop stationData "Code")))
    as [p0' |] eqn:Hnet; inversion Hp0; subst p0' t0; clear Hp0.
  apply bind_inv in H. destruct H as (merged & t1 & Hmerge & H).
  apply bind_inv in H. destruct H as (trains & t2 & Htrains & H).
  apply lift_inv in Htrains. destruct Htrains as [Htrains ->].
  apply bind_inv in H. destruct H as (pd & t2 & Hpd & H).
  unfold arrayFilter in Hpd.
  destruct trains as [| | | | | items |]; try discriminate.
  apply bind_inv in Hpd. destruct Hpd as (kept & t3 & Hkept & Hpd).
  apply ret_inv in Hpd. destruct Hpd as [<- ->].
  apply filterM_inv in Hkept. destruct Hkept as (-> & -> & Hall).
  apply bind_inv in H. destruct H as (lines & t2 & _ & H).
  apply bind_inv in H. destruct H as (tr & t3 & _ & H).
  apply bind_inv in H. destruct H as (incData & t4 & _ & H).
  apply bind_inv in H. destruct H as (incidents & t5 & _ & H).
  apply bind_inv in H. destruct H as (name & t6 & Hname & H).
  apply lift_inv in Hname. destruct Hname as [Hname ->].
  rewrite (getProp_prop _ _ Hn) in Hname. inversion Hname; subst name.
  apply ret_inv in H. destruct H as [<- ->].
  exists p0, merged, items, incidents, t1.
  repeat split; assumption || reflexivity.
Qed.

(** What a run of the rail path that returned an object did. *)
Lemma fetchTrainTimetable_inv station t props t' :
  fetchTrainTimetable wmataApiKey U net station t = (inr (VObj props), t') ->
  exists stations stationData t1,
    net t (stationsUrl wmataApiKey) = Some stations
    /\ resolveStation U station stations
         (t ++ [Fetch (stationsUrl wmataApiKey)])%list
       = (inr stationData, t1)
    /\ truthy stationData = true
    /\ stationTimetable wmataApiKey U net stationData t1
       = (inr (VObj props), t').
Proof.
  unfold fetchTrainTimetable, tryCatch. intros H.
  match type of H with
  | (match ?body with _ => _ end) = _ => destruct body as [[e | r] t0] eqn:Hbody
  end.
  - discriminate.
  - inversion H; subst r t0; clear H.
    apply bind_inv in Hbody. destruct Hbody as (stations & t0 & Hst & H).
    unfold fetchJson in Hst.
    destruct (net t (stationsUrl wmataApiKey)) as [st' |] eqn:Hnet;
      inversion Hst; subst st' t0; clear Hst.
    apply bind_inv in H. destruct H as (sd & t1 & Hsd & H).
    destruct (truthy sd) eqn:Htr.
    + exists stations, sd, t1. auto.
    + discriminate.
Qed.

(** Once a station is resolved, no search helper is called again. *)
Lemma stationTimetable_no_fuzzy stationData :
  emitsOnly notFuzzyCall (stationTimetable wmataApiKey U net stationData).
Proof.
  unfold stationTimetable, mergePlatforms, arrayFilter, lineCodes,
    fetchIncidents, keepPrediction.
  repeat emits_step.
  match goal with
  | |- emitsOnly _ (match ?v with _ => _ end) => destruct v
  end; repeat emits_step.
Qed.

End RailPath.

(** ** Line codes *)

(** C2: for the station of the specification's example, whose second line
    code is "BL", the list handed to the incident filter is
    ["RD", undefined], not the non-null line codes ["RD", "BL"]: the
    second push reads [lineCode2], a key the record does not have.  An
    incident on the Blue Line alone is therefore not reported. *)
Theorem line_codes_second_push_undefined :
  specLineCodes Sample.metroCenter = [VStr "RD"; VStr "BL"]
  /\ lineCodes Sample.metroCenter [] = (inr [VStr "RD"; VUndefined], [])
  /\ In (Call "getRelevantIncidents"
           [VArr [VStr "RD"; VUndefined]; Sample.incidents])
        (snd (fetchTrainTimetable Sample.apiKey Sample.util Sample.net
                "Metro Center" []))
  /\ prop (match fst (fetchTrainTimetable Sample.apiKey Sample.util
                        Sample.net "Metro Center" []) with
           | inr result => result
           | inl _ => VUndefined
           end) "incidents"
     = VArr [Sample.redOrange]
  /\ SpecUtil.relevant "," (specLineCodes Sample.metroCenter)
       [Sample.redOrange; Sample.blueOnly; Sample.greenOnly]
     = [Sample.redOrange; Sample.blueOnly].
Proof.
  repeat split.
  vm_compute. do 4 right. left. reflexivity.
Qed.

(** Where the record has a LineCode2 and no [lineCode2] key, the list
    built is never the list of its non-null line codes. *)
Lemma lineCodes_not_spec stationData t :
  nullish stationData = false ->
  isNull (prop stationData "LineCode2") = false ->
  prop stationData "LineCode2" <> VUndefined ->
  prop stationData "lineCode2" = VUndefined ->
  lineCodes stationData t <> (inr (specLineCodes stationData), t).
Proof.
  intros Hn Hc Hd Hl. rewrite (lineCodes_run stationData t Hn).
  unfold pushedLineCodes, specLineCodes, pushIf. simpl filter.
  rewrite Hc, Hl. simpl negb.
  destruct (isNull (prop stationData "LineCode1")); simpl;
    intros H; inversion H; congruence.
Qed.

(** ** Station not found *)

(** C4: when the station feed answers and neither search finds a station,
    the rail path returns [null]; an upstream failure of the station feed
    returns the empty array; the two differ. *)
Theorem not_found_is_null_not_empty_array :
  forall (wmataApiKey : value) (U : Util) (net : Net) (station : string)
         (stations r1 r2 : value) (t : trace),
    net t (stationsUrl wmataApiKey) = Some stations ->
    stationPartialSearch U (VStr (toLowerCase station)) stations = inr r1 ->
    truthy r1 = false ->
    stationFuzzySearch U (VStr (toLowerCase station)) stations = inr r2 ->
    truthy r2 = false ->
    fst (fetchTrainTimetable wmataApiKey U net station t) = inr VNull
    /\ (forall (down : Net) (t0 : trace),
           down t0 (stationsUrl wmataApiKey) = None ->
           fst (fetchTrainTimetable wmataApiKey U down station t0)
           = inr (VArr []))
    /\ VNull <> VArr [].
Proof.
  intros key U net station stations r1 r2 t Hnet Hp Hr1 Hf Hr2.
  split; [| split].
  - rewrite (not_found_run key U net station stations r1 r2 t); auto.
  - intros down t0 Hdown. rewrite stations_down_run; auto.
  - discriminate.
Qed.

Lemma not_found_is_null_not_empty_array_witness :
  fst (fetchTrainTimetable Sample.apiKey Sample.util Sample.net
         "zzzznotastation" []) = inr VNull
  /\ (forall (down : Net) (t0 : trace),
         down t0 (stationsUrl Sample.apiKey) = None ->
         fst (fetchTrainTimetable Sample.apiKey Sample.util down
                "zzzznotastation" t0) = inr (VArr []))
  /\ VNull <> VArr [].
Proof.
  apply (not_found_is_null_not_empty_array Sample.apiKey Sample.util
           Sample.net "zzzznotastation" Sample.stations
           VUndefined VUndefined []); reflexivity.
Defined.

(** C10: when neither search finds a station, the run consists of the
    station request and the two searches and returns [null]; no other
    request is issued, and any world that gives the same station list
    gives the same run, whatever its prediction and incident feeds
    answer. *)
Theorem not_found_reads_station_feed_only :
  forall (wmataApiKey : value) (U : Util) (net : Net) (station : string)
         (stations r1 r2 : value) (t : trace),
    net t (stationsUrl wmataApiKey) = Some stations ->
    stationPartialSearch U (VStr (toLowerCase station)) stations = inr r1 ->
    truthy r1 = false ->
    stationFuzzySearch U (VStr (toLowerCase station)) stations = inr r2 ->
    truthy r2 = false ->
    fetchTrainTimetable wmataApiKey U net station t
    = (inr VNull,
       (t ++ [Fetch (stationsUrl wmataApiKey);
              Call "stationPartialSearch"
                [VStr (toLowerCase station); stations];
              Call "stationFuzzySearch"
                [VStr (toLowerCase station); stations]])%list)
    /\ (forall other : Net,
           other t (stationsUrl wmataApiKey) = Some stations ->
           fetchTrainTimetable wmataApiKey U other station t
           = fetchTrainTimetable wmataApiKey U net station t).
Proof.
  intros key U net station stations r1 r2 t Hnet Hp Hr1 Hf Hr2.
  split.
  - apply (not_found_run key U net station stations r1 r2 t); assumption.
  - intros other Hother.
    rewrite (not_found_run key U net station stations r1 r2 t) by assumption.
    apply (not_found_run key U other station stations r1 r2 t); assumption.
Qed.

Lemma not_found_reads_station_feed_only_witness :
  fetchTrainTimetable Sample.apiKey Sample.util Sample.net
    "zzzznotastation" []
  = (inr VNull,
     [Fetch (stationsUrl Sample.apiKey);
      Call "stationPartialSearch" [VStr "zzzznotastation"; Sample.stations];
      Call "stationFuzzySearch" [VStr "zzzznotastation"; Sample.stations]])
  /\ (forall other : Net,
         other [] (stationsUrl Sample.apiKey) = Some Sample.stations ->
         fetchTrainTimetable Sample.apiKey Sample.util other
           "zzzznotastation" []
         = fetchTrainTimetable Sample.apiKey Sample.util Sample.net
             "zzzznotastation" []).
Proof.
  apply (not_found_reads_station_feed_only Sample.apiKey Sample.util
           Sample.net "zzzznotastation" Sample.stations
           VUndefined VUndefined []); reflexivity.
Defined.

(** ** Upstream failures *)

(** C5 as stated fails at a prediction feed that is down: the station is
    resolved and the incident feed answers, yet the result is the bare
    empty array; the station's name and its incidents are not part of
    it, and no incident request is even issued. *)
Lemma prediction_failure_drops_everything :
  resolveStation Sample.util "Metro Center" Sample.stations
    [Fetch (stationsUrl Sample.apiKey)]
  = (inr Sample.metroCenter,
     [Fetch (stationsUrl Sample.apiKey);
      Call "stationPartialSearch" [VStr "metro center"; Sample.stations]])
  /\ (forall t, Sample.netPredictionsDown t
                  (incidentsUrl Sample.apiKey (VStr "train"))
                = Some Sample.incidents)
  /\ fetchTrainTimetable Sample.apiKey Sample.util
       Sample.netPredictionsDown "Metro Center" []
     = (inr (VArr []),
        [Fetch (stationsUrl Sample.apiKey);
         Call "stationPartialSearch" [VStr "metro center"; Sample.stations];
         Fetch (predictionUrl Sample.apiKey (VStr "A01"))])
  /\ (forall name predictions incidents,
         VArr [] <> aggregated name predictions incidents).
Proof.
  repeat apply conj; try reflexivity.
  intros name predictions incidents H. discriminate H.
Qed.

(** ** Merging and filtering predictions *)

Lemma strictEqStr_false v lit : strictEqStr v lit = false <-> v <> VStr lit.
Proof.
  destruct v; simpl; split; intros H; try reflexivity; try discriminate.
  - intros E. inversion E; subst. rewrite String.eqb_refl in H. discriminate.
  - destruct (String.eqb_spec s lit); [subst; contradiction H |]; reflexivity.
Qed.

(** The filter keeps an entry exactly when none of the four strings is
    there, character for character. *)
Lemma keepb_spec item : keepb item = true <-> ~ sentinel item.
Proof.
  unfold keepb, sentinel.
  rewrite !andb_true_iff, !negb_true_iff, !strictEqStr_false. tauto.
Qed.

(** C3, as the code has it: for a station without a paired platform the
    rail path fetches one prediction list and returns its entries that
    pass the filter, in the order the feed gave them; after the station
    is resolved the run is the prediction request, the incident request
    and the call of the incident filter, and [sortPredictions] is not
    called. *)
Theorem unpaired_station_filtered_in_feed_order :
  forall (wmataApiKey : value) (U : Util) (net : Net) (station : string)
         (stations stationData predictionObj : value) (items : list value)
         (transport incidents : value) (t t1 : trace),
    net t (stationsUrl wmataApiKey) = Some stations ->
    resolveStation U station stations
      (t ++ [Fetch (stationsUrl wmataApiKey)])%list
    = (inr stationData, t1) ->
    truthy stationData = true ->
    truthy (prop stationData "StationTogether1") = false ->
    net t1 (predictionUrl wmataApiKey (prop stationData "Code"))
    = Some predictionObj ->
    getProp predictionObj "Trains" = inr (VArr items) ->
    Forall (fun item => nullish item = false) items ->
    getProp (serviceTypeEnum U) "TRAIN" = inr transport ->
    getRelevantIncidents U (VArr (pushedLineCodes stationData))
      (incidentsOrEmpty
         (net (t1 ++ [Fetch (predictionUrl wmataApiKey
                               (prop stationData "Code"))])%list
              (incidentsUrl wmataApiKey transport)))
    = inr incidents ->
    exists incidentData,
      fetchTrainTimetable wmataApiKey U net station t
      = (inr (aggregated (prop stationData "Name")
                         (VArr (filter keepb items)) incidents),
         (t1 ++ [Fetch (predictionUrl wmataApiKey (prop stationData "Code"));
                 Fetch (incidentsUrl wmataApiKey transport);
                 Call "getRelevantIncidents"
                   [VArr (pushedLineCodes stationData); incidentData]])%list)
      /\ ~ invoked "sortPredictions"
             [Fetch (predictionUrl wmataApiKey (prop stationData "Code"));
              Fetch (incidentsUrl wmataApiKey transport);
              Call "getRelevantIncidents"
                [VArr (pushedLineCodes stationData); incidentData]].
Proof.
  intros key U net station stations sd p items transport incidents t t1
    Hnet Hres Htr Htog Hpred Htrains Hitems Htransport Hrel.
  eexists. split.
  - rewrite (fetchTrainTimetable_resolved key U net station stations sd t t1)
      by assumption.
    apply tryCatch_inr.
    pose proof (stationTimetable_unpaired key U net sd p items transport
                  incidents t1) as Hrun.
    cbv zeta in Hrun. rewrite Hrun; try assumption.
    + rewrite <- app_assoc. reflexivity.
    + apply truthy_not_nullish; assumption.
  - intros [args [H | [H | [H | []]]]]; discriminate H.
Qed.

Lemma unpaired_station_filtered_in_feed_order_witness :
  exists incidentData,
    fetchTrainTimetable Sample.apiKey Sample.util Sample.net
      "Metro Center" []
    = (inr (aggregated (VStr "Metro Center")
              (VArr [Sample.glenmont5; Sample.shadyGrove2])
              (VArr [Sample.redOrange])),
       [Fetch (stationsUrl Sample.apiKey);
        Call "stationPartialSearch" [VStr "metro center"; Sample.stations];
        Fetch (predictionUrl Sample.apiKey (VStr "A01"));
        Fetch (incidentsUrl Sample.apiKey (VStr "train"));
        Call "getRelevantIncidents"
          [VArr [VStr "RD"; VUndefined]; incidentData]])
    /\ ~ invoked "sortPredictions"
           [Fetch (predictionUrl Sample.apiKey (VStr "A01"));
            Fetch (incidentsUrl Sample.apiKey (VStr "train"));
            Call "getRelevantIncidents"
              [VArr [VStr "RD"; VUndefined]; incidentData]].
Proof.
  apply (unpaired_station_filtered_in_feed_order Sample.apiKey Sample.util
           Sample.net "Metro Center" Sample.stations Sample.metroCenter
           (VObj [("Trains", VArr [Sample.glenmont5; Sample.noPassengers;
                                   Sample.shadyGrove2])])
           [Sample.glenmont5; Sample.noPassengers; Sample.shadyGrove2]
           (VStr "train") (VArr [Sample.redOrange]) []
           [Fetch (stationsUrl Sample.apiKey);
            Call "stationPartialSearch"
              [VStr "metro center"; Sample.stations]]);
    try reflexivity.
  repeat constructor.
Defined.

(** C3 as stated fails at the specification's own station: its feed lists
    the train due in 5 minutes before the train due in 2, and so does the
    result, which is neither sorted by minutes nor equal to the filtered
    sorted list. *)
Lemma unpaired_output_not_sorted :
  prop Sample.metroCenter "StationTogether1" = VNull
  /\ Sample.net [Fetch (stationsUrl Sample.apiKey);
                 Call "stationPartialSearch"
                   [VStr "metro center"; Sample.stations]]
       (predictionUrl Sample.apiKey (VStr "A01"))
     = Some (VObj [("Trains", VArr [Sample.glenmont5; Sample.noPassengers;
                                    Sample.shadyGrove2])])
  /\ fst (fetchTrainTimetable Sample.apiKey Sample.util Sample.net
            "Metro Center" [])
     = inr (aggregated (VStr "Metro Center")
              (VArr [Sample.glenmont5; Sample.shadyGrove2])
              (VArr [Sample.redOrange]))
  /\ filter keepb
       (SpecUtil.sortByMinutes
          [Sample.glenmont5; Sample.noPassengers; Sample.shadyGrove2])
     = [Sample.shadyGrove2; Sample.glenmont5]
  /\ [Sample.glenmont5; Sample.shadyGrove2]
     <> filter keepb
          (SpecUtil.sortByMinutes
             [Sample.glenmont5; Sample.noPassengers; Sample.shadyGrove2])
  /\ SpecUtil.sortedByMinutes [Sample.glenmont5; Sample.shadyGrove2] = false.
Proof.
  repeat apply conj; try reflexivity.
  vm_compute. intros H. discriminate H.
Qed.

(** C6: the filter of the rail path returns, of every list it can read,
    exactly the entries, in order, that pass [keepb]; an entry passes
    exactly when its Line is neither "None" nor "No" and its Destination
    is neither "ssenger" nor "Train", by equality of strings.  In every
    run that returns a timetable the list filtered is the one the run
    itself produced: the primary feed's [Trains] for a station without a
    paired platform, what [sortPredictions] returned on the two feeds'
    lists for a station with one; so no entry of the result carries one
    of the four values, and every entry of that list that carries none
    is in the result. *)
Theorem sentinel_entries_filtered :
  forall (wmataApiKey : value) (U : Util) (net : Net) (station : string),
    (forall items t,
        Forall (fun item => nullish item = false) items ->
        arrayFilter keepPrediction (VArr items) t
        = (inr (VArr (filter keepb items)), t))
    /\ (forall item, keepb item = true <-> ~ sentinel item)
    /\ (forall item items,
           In item (filter keepb items) <-> In item items /\ ~ sentinel item)
    /\ (forall name predictions incidents t t',
           fetchTrainTimetable wmataApiKey U net station t
           = (inr (aggregated name predictions incidents), t') ->
           exists stations stationData predictionObj merged items t1 t2,
             net t (stationsUrl wmataApiKey) = Some stations
             /\ resolveStation U station stations
                  (t ++ [Fetch (stationsUrl wmataApiKey)])%list
                = (inr stationData, t1)
             /\ net t1 (predictionUrl wmataApiKey (prop stationData "Code"))
                = Some predictionObj
             /\ mergePlatforms wmataApiKey U net stationData predictionObj
                  (t1 ++ [Fetch (predictionUrl wmataApiKey
                                   (prop stationData "Code"))])%list
                = (inr merged, t2)
             /\ getProp merged "Trains" = inr (VArr items)
             /\ ((truthy (prop stationData "StationTogether1") = false
                  /\ getProp predictionObj "Trains" = inr (VArr items))
                 \/ (truthy (prop stationData "StationTogether1") = true
                     /\ exists predictionObjMulti both,
                         net (t1 ++ [Fetch (predictionUrl wmataApiKey
                                              (prop stationData "Code"))])%list
                             (predictionUrl wmataApiKey
                                (prop stationData "StationTogether1"))
                         = Some predictionObjMulti
                         /\ concat (prop predictionObj "Trains")
                                   (prop predictionObjMulti "Trains")
                            = inr both
                         /\ sortPredictions U both = inr (VArr items)))
             /\ predictions = VArr (filter keepb items)).
Proof.
  intros key U net station. split; [| split; [| split]].
  - intros items t Hall. unfold arrayFilter.
    erewrite bind_inr by (apply filterM_run; exact Hall). reflexivity.
  - apply keepb_spec.
  - intros item items. rewrite filter_In, keepb_spec. tauto.
  - intros name predictions incidents t t' H.
    apply fetchTrainTimetable_inv in H.
    destruct H as (stations & sd & t1 & Hnet & Hres & Htr & H).
    apply stationTimetable_inv in H.
    destruct H as (p & merged & items & incs & t2 & Hn & Hp & Hm & Htrains
                   & Hall & Hresult).
    unfold aggregated in Hresult. inversion Hresult; subst.
    exists stations, sd, p, merged, items, t1, t2.
    repeat (split; [assumption || reflexivity |]).
    split; [| reflexivity].
    destruct (mergePlatforms_inv key U net sd p _ merged t2 Hm)
      as [(Hfalse & -> & _)
         | (Htrue & pm & both & sorted & Hpm & Hboth & Hsort & Hmt & _)].
    + left. split; assumption.
    + right. split; [exact Htrue |]. exists pm, both.
      rewrite Hmt in Htrains. inversion Htrains; subst sorted.
      repeat split; assumption.
Qed.

Lemma sentinel_entries_filtered_witness :
  arrayFilter keepPrediction
    (VArr [Sample.glenmont5; Sample.noPassengers; Sample.shadyGrove2]) []
  = (inr (VArr [Sample.glenmont5; Sample.shadyGrove2]), [])
  /\ exists stations stationData predictionObj merged items t1 t2,
      Sample.net [] (stationsUrl Sample.apiKey) = Some stations
      /\ resolveStation Sample.util "fort totten" stations
           [Fetch (stationsUrl Sample.apiKey)]
         = (inr stationData, t1)
      /\ Sample.net t1 (predictionUrl Sample.apiKey (prop stationData "Code"))
         = Some predictionObj
      /\ mergePlatforms Sample.apiKey Sample.util Sample.net stationData
           predictionObj
           (t1 ++ [Fetch (predictionUrl Sample.apiKey
                            (prop stationData "Code"))])%list
         = (inr merged, t2)
      /\ getProp merged "Trains" = inr (VArr items)
      /\ ((truthy (prop stationData "StationTogether1") = false
           /\ getProp predictionObj "Trains" = inr (VArr items))
          \/ (truthy (prop stationData "StationTogether1") = true
              /\ exists predictionObjMulti both,
                  Sample.net
                    (t1 ++ [Fetch (predictionUrl Sample.apiKey
                                     (prop stationData "Code"))])%list
                    (predictionUrl Sample.apiKey
                       (prop stationData "StationTogether1"))
                  = Some predictionObjMulti
                  /\ concat (prop predictionObj "Trains")
                            (prop predictionObjMulti "Trains")
                     = inr both
                  /\ sortPredictions Sample.util both = inr (VArr items)))
      /\ VArr [Sample.greenbeltBRD; Sample.glenmont5]
         = VArr (filter keepb items).
Proof.
  pose proof (sentinel_entries_filtered Sample.apiKey Sample.util Sample.net
                "fort totten") as (Hfilter & _ & _ & Hrun).
  split.
  - apply (Hfilter [Sample.glenmont5; Sample.noPassengers;
                    Sample.shadyGrove2] []).
    repeat constructor.
  - apply (Hrun (VStr "Fort Totten")
             (VArr [Sample.greenbeltBRD; Sample.glenmont5])
             (VArr [Sample.redOrange]) []
             [Fetch (stationsUrl Sample.apiKey);
              Call "stationPartialSearch"
                [VStr "fort totten"; Sample.stations];
              Fetch (predictionUrl Sample.apiKey (VStr "B06"));
              Fetch (predictionUrl Sample.apiKey (VStr "E06"));
              Call "sortPredictions"
                [VArr [Sample.glenmont5; Sample.noPassengers;
                       Sample.greenbeltBRD]];
              Fetch (incidentsUrl Sample.apiKey (VStr "train"));
              Call "getRelevantIncidents"
                [VArr [VStr "RD"]; Sample.incidents]]).
    reflexivity.
Defined.

(** ** Resolving the station *)

Lemma invoked_app fn t ext :
  invoked fn (t ++ ext)%list <-> invoked fn t \/ invoked fn ext.
Proof.
  unfold invoked. split.
  - intros [args H]. apply in_app_or in H. destruct H; eauto.
  - intros [[args H] | [args H]]; exists args; apply in_or_app; auto.
Qed.

Lemma notFuzzyCall_not_invoked ext :
  Forall notFuzzyCall ext -> ~ invoked "stationFuzzySearch" ext.
Proof.
  intros Hall [args Hin].
  rewrite Forall_forall in Hall. apply Hall in Hin. simpl in Hin.
  contradiction Hin. reflexivity.
Qed.

Section Resolver.

Variable wmataApiKey : value.
Variable U : Util.
Variable net : Net.

(** The fuzzy search is called in a run of the resolver exactly when the
    partial search returned a falsy value. *)
Lemma resolveStation_fuzzy_iff station stations :
  invoked "stationFuzzySearch" (snd (resolveStation U station stations []))
  <-> exists r,
      stationPartialSearch U (VStr (toLowerCase station)) stations = inr r
      /\ truthy r = false.
Proof.
  destruct (stationPartialSearch U (VStr (toLowerCase station)) stations)
    as [e | r] eqn:Hp.
  - rewrite (resolveStation_throw U station stations e [] Hp). simpl.
    split.
    + intros [args [H | []]]. discriminate H.
    + intros (r & H & _). discriminate H.
  - destruct (truthy r) eqn:Htr.
    + rewrite (resolveStation_hit U station stations r [] Hp Htr). simpl.
      split.
      * intros [args [H | []]]. discriminate H.
      * intros (r' & H & Hr'). inversion H; subst. congruence.
    + rewrite (resolveStation_miss U station stations r [] Hp Htr). simpl.
      split.
      * intros _. exists r. auto.
      * intros _. eexists. right. left. reflexivity.
Qed.

(** The same for a whole run of the rail path. *)
Lemma fetchTrainTimetable_fuzzy_iff station :
  invoked "stationFuzzySearch"
    (snd (fetchTrainTimetable wmataApiKey U net station []))
  <-> exists stations r,
      net [] (stationsUrl wmataApiKey) = Some stations
      /\ stationPartialSearch U (VStr (toLowerCase station)) stations = inr r
      /\ truthy r = false.
Proof.
  destruct (net [] (stationsUrl wmataApiKey)) as [stations |] eqn:Hnet.
  2:{ rewrite (stations_down_run wmataApiKey U net station [] Hnet). simpl.
      split.
      - intros [args [H | []]]. discriminate H.
      - intros (s & r & H & _). discriminate H. }
  unfold fetchTrainTimetable. rewrite tryCatch_snd.
  erewrite bind_inr by (unfold fetchJson; rewrite Hnet; reflexivity).
  simpl app.
  destruct (stationPartialSearch U (VStr (toLowerCase station)) stations)
    as [e | r] eqn:Hp.
  { erewrite bind_inl by (apply resolveStation_throw; exact Hp). simpl.
    split.
    - intros [args [H | [H | []]]]; discriminate H.
    - intros (s & r & Hs & H & _). inversion Hs; subst. congruence. }
  destruct (truthy r) eqn:Htr.
  { erewrite bind_inr by (apply resolveStation_hit; eassumption).
    rewrite Htr.
    destruct (stationTimetable_no_fuzzy wmataApiKey U net r
                ([Fetch (stationsUrl wmataApiKey)]
                 ++ [Call "stationPartialSearch"
                       [VStr (toLowerCase station); stations]])%list)
      as (ext & -> & Hext).
    rewrite invoked_app. split.
    - intros [[args [H | [H | []]]] | H]; try discriminate H.
      exfalso. exact (notFuzzyCall_not_invoked _ Hext H).
    - intros (s & r' & Hs & H & Hr'). inversion Hs; subst. congruence. }
  split; [intros _; exists stations, r; auto |]. intros _.
  pose proof (resolveStation_miss U station stations r
                [Fetch (stationsUrl wmataApiKey)] Hp Htr) as Hmiss.
  simpl app in Hmiss.
  destruct (stationFuzzySearch U (VStr (toLowerCase station)) stations)
    as [e | sd].
  { erewrite bind_inl by exact Hmiss. simpl.
    eexists. right. right. left. reflexivity. }
  erewrite bind_inr by exact Hmiss.
  destruct (truthy sd).
  - match goal with
    | |- context [stationTimetable _ _ _ _ ?t0] =>
        destruct (stationTimetable_no_fuzzy wmataApiKey U net sd t0)
          as (ext & -> & _)
    end.
    apply invoked_app. left. eexists. right. right. left. reflexivity.
  - simpl. eexists. right. right. left. reflexivity.
Qed.

End Resolver.

(** ** The helpers of the specification *)

Lemma startsWith_spec b a :
  SpecUtil.startsWith b a = true <-> exists post, b = a ++ post.
Proof.
  revert b. induction a as [| c a IH]; intros b; simpl.
  - split; [intros _; exists b; reflexivity | reflexivity].
  - destruct b as [| d b].
    + split; [discriminate | intros [post H]; discriminate H].
    + rewrite andb_true_iff, IH. split.
      * intros [Hc [post H]]. apply Ascii.eqb_eq in Hc. subst.
        exists post. reflexivity.
      * intros [post H]. inversion H. split.
        -- apply Ascii.eqb_refl.
        -- exists post. reflexivity.
Qed.

(** [includes] decides occurrence. *)
Lemma includes_spec hay needle :
  SpecUtil.includes hay needle = true <-> Substring needle hay.
Proof.
  unfold Substring. induction hay as [| c hay IH].
  - simpl. rewrite orb_false_r, startsWith_spec. split.
    + intros [post H]. exists "", post. exact H.
    + intros (pre & post & H). destruct pre; [| discriminate H].
      exists post. exact H.
  - simpl SpecUtil.includes. rewrite orb_true_iff, startsWith_spec, IH. split.
    + intros [[post H] | (pre & post & H)].
      * exists "", post. exact H.
      * exists (String c pre), post. simpl. rewrite H. reflexivity.
    + intros (pre & post & H). destruct pre as [| d pre].
      * left. exists post. exact H.
      * right. exists pre, post. simpl in H. inversion H. reflexivity.
Qed.

Lemma stationName_truthy item n :
  SpecUtil.stationName item = Some n -> truthy item = true.
Proof.
  unfold SpecUtil.stationName. destruct item; simpl; try discriminate.
  reflexivity.
Qed.

Lemma partialMatch_spec query item :
  SpecUtil.partialMatch query item = true
  <-> exists n, SpecUtil.stationName item = Some n
                /\ (Substring query (toLowerCase n)
                    \/ Substring (toLowerCase n) query).
Proof.
  unfold SpecUtil.partialMatch.
  destruct (SpecUtil.stationName item) as [n |].
  - rewrite orb_true_iff, !includes_spec. split.
    + intros H. exists n. auto.
    + intros (n' & E & H). inversion E; subst. exact H.
  - split; [discriminate | intros (n & E & _); discriminate E].
Qed.

(** The partial search of the specification finds a station whenever one
    matches, and what it finds is the first match. *)
Lemma specPartialSearch_finds query items item :
  In item items ->
  SpecUtil.partialMatch query item = true ->
  exists found before after,
    SpecUtil.stationPartialSearch (VStr query) (VArr items) = inr found
    /\ truthy found = true
    /\ SpecUtil.partialMatch query found = true
    /\ items = (before ++ found :: after)%list
    /\ Forall (fun x => SpecUtil.partialMatch query x = false) before.
Proof.
  intros Hin Hm. unfold SpecUtil.stationPartialSearch.
  induction items as [| x l IH]; [destruct Hin |].
  simpl. destruct (SpecUtil.partialMatch query x) eqn:Hx.
  - exists x, [], l. repeat split; auto.
    apply partialMatch_spec in Hx. destruct Hx as (n & Hn & _).
    eapply stationName_truthy; exact Hn.
  - destruct Hin as [-> | Hin]; [congruence |].
    destruct (IH Hin) as (found & before & after & Hf & Ht & Hpm & -> & Hall).
    exists found, (x :: before)%list, after.
    destruct (find (SpecUtil.partialMatch query) (before ++ found :: after));
      repeat split; auto.
Qed.

(** C7: the resolver calls the partial search first; when that returns a
    station the station is the result and the fuzzy search is not called;
    the fuzzy search is called, in the resolver and in a whole run of the
    rail path, exactly when the partial search returned nothing.  With
    the partial search of the specification, a query that is a substring
    of a station's name, or has the name as a substring, letter case
    aside, is resolved by the partial search alone, to the first such
    station. *)
Theorem partial_search_before_fuzzy :
  forall (wmataApiKey : value) (U : Util) (net : Net) (station : string),
    (forall stations stationData t,
        stationPartialSearch U (VStr (toLowerCase station)) stations
        = inr stationData ->
        truthy stationData = true ->
        resolveStation U station stations t
        = (inr stationData,
           (t ++ [Call "stationPartialSearch"
                    [VStr (toLowerCase station); stations]])%list))
    /\ (forall stations r t,
           stationPartialSearch U (VStr (toLowerCase station)) stations
           = inr r ->
           truthy r = false ->
           resolveStation U station stations t
           = (stationFuzzySearch U (VStr (toLowerCase station)) stations,
              (t ++ [Call "stationPartialSearch"
                       [VStr (toLowerCase station); stations];
                     Call "stationFuzzySearch"
                       [VStr (toLowerCase station); stations]])%list))
    /\ (forall stations,
           invoked "stationFuzzySearch"
             (snd (resolveStation U station stations []))
           <-> exists r,
               stationPartialSearch U (VStr (toLowerCase station)) stations
               = inr r
               /\ truthy r = false)
    /\ (invoked "stationFuzzySearch"
          (snd (fetchTrainTimetable wmataApiKey U net station []))
        <-> exists stations r,
            net [] (stationsUrl wmataApiKey) = Some stations
            /\ stationPartialSearch U (VStr (toLowerCase station)) stations
               = inr r
            /\ truthy r = false)
    /\ (forall similarity threshold delim items item n t,
           In item items ->
           SpecUtil.stationName item = Some n ->
           Substring (toLowerCase station) (toLowerCase n)
           \/ Substring (toLowerCase n) (toLowerCase station) ->
           exists found before after,
             resolveStation (SpecUtil.util similarity threshold delim)
               station (VArr items) t
             = (inr found,
                (t ++ [Call "stationPartialSearch"
                         [VStr (toLowerCase station); VArr items]])%list)
             /\ SpecUtil.partialMatch (toLowerCase station) found = true
             /\ items = (before ++ found :: after)%list
             /\ Forall (fun x => SpecUtil.partialMatch
                                   (toLowerCase station) x = false) before).
Proof.
  intros key U net station.
  split; [| split; [| split; [| split]]].
  - intros stations sd t. apply resolveStation_hit.
  - intros stations r t. apply resolveStation_miss.
  - intros stations. apply resolveStation_fuzzy_iff.
  - apply fetchTrainTimetable_fuzzy_iff.
  - intros similarity threshold delim items item n t Hin Hname Hsub.
    destruct (specPartialSearch_finds (toLowerCase station) items item Hin)
      as (found & before & after & Hf & Ht & Hpm & Hitems & Hall).
    { apply partialMatch_spec. exists n. auto. }
    exists found, before, after. repeat split; try assumption.
    apply resolveStation_hit; assumption.
Qed.

Lemma partial_search_before_fuzzy_witness :
  resolveStation Sample.util "Fort" Sample.stations []
  = (inr Sample.fortTotten,
     [Call "stationPartialSearch" [VStr "fort"; Sample.stations]])
  /\ resolveStation Sample.util "zzzznotastation" Sample.stations []
     = (inr VUndefined,
        [Call "stationPartialSearch"
           [VStr "zzzznotastation"; Sample.stations];
         Call "stationFuzzySearch"
           [VStr "zzzznotastation"; Sample.stations]])
  /\ exists found before after,
      resolveStation Sample.util "Fort Totten Station"
        (VArr [Sample.metroCenter; Sample.fortTotten]) []
      = (inr found,
         [Call "stationPartialSearch"
            [VStr "fort totten station";
             VArr [Sample.metroCenter; Sample.fortTotten]]])
      /\ SpecUtil.partialMatch "fort totten station" found = true
      /\ [Sample.metroCenter; Sample.fortTotten]
         = (before ++ found :: after)%list
      /\ Forall (fun x => SpecUtil.partialMatch "fort totten station" x
                          = false) before.
Proof.
  pose proof (partial_search_before_fuzzy Sample.apiKey Sample.util
                Sample.net "Fort") as (Hhit & _).
  pose proof (partial_search_before_fuzzy Sample.apiKey Sample.util
                Sample.net "zzzznotastation") as (_ & Hmiss & _).
  pose proof (partial_search_before_fuzzy Sample.apiKey Sample.util
                Sample.net "Fort Totten Station")
    as (_ & _ & _ & _ & Hspec).
  split; [| split].
  - apply (Hhit Sample.stations Sample.fortTotten []); reflexivity.
  - apply (Hmiss Sample.stations VUndefined []); reflexivity.
  - apply (Hspec Sample.similarity 60 ","%char
             [Sample.metroCenter; Sample.fortTotten] Sample.fortTotten
             "Fort Totten" []).
    + right. left. reflexivity.
    + reflexivity.
    + right. exists "", " station". reflexivity.
Defined.

(** ** The incident filter of the specification *)

Section IncidentFilter.

Variable delim : ascii.

Lemma tokens_delimFree code :
  SpecUtil.delimFree delim code -> SpecUtil.tokens delim code = [code].
Proof.
  unfold SpecUtil.delimFree. induction code as [| c code IH]; simpl; intros H.
  - reflexivity.
  - destruct (Ascii.eqb_spec c delim) as [-> | Hne].
    + contradiction H. left. reflexivity.
    + rewrite IH; [reflexivity |]. intros Hin. apply H. right. exact Hin.
Qed.

Lemma tokens_app_delim code rest :
  SpecUtil.delimFree delim code ->
  SpecUtil.tokens delim (code ++ String delim rest)
  = code :: SpecUtil.tokens delim rest.
Proof.
  unfold SpecUtil.delimFree. induction code as [| c code IH]; simpl; intros H.
  - rewrite Ascii.eqb_refl. reflexivity.
  - destruct (Ascii.eqb_spec c delim) as [-> | Hne].
    + contradiction H. left. reflexivity.
    + rewrite IH; [reflexivity |]. intros Hin. apply H. right. exact Hin.
Qed.

(** The tokens of a field are the codes it was joined from. *)
Lemma tokens_joinWith codes :
  codes <> [] ->
  Forall (SpecUtil.delimFree delim) codes ->
  SpecUtil.tokens delim (SpecUtil.joinWith delim codes) = codes.
Proof.
  induction codes as [| code rest IH]; intros Hne Hall; [contradiction Hne; reflexivity |].
  inversion Hall as [| ? ? Hcode Hrest]; subst.
  destruct rest as [| code' rest'].
  - simpl. apply tokens_delimFree. exact Hcode.
  - change (SpecUtil.joinWith delim (code :: code' :: rest'))
      with (code ++ String delim (SpecUtil.joinWith delim (code' :: rest'))).
    rewrite tokens_app_delim by exact Hcode.
    rewrite IH; [reflexivity | discriminate | exact Hrest].
Qed.

Lemma isToken_spec s id :
  SpecUtil.isToken delim s id = true
  <-> exists code, id = VStr code /\ In code (SpecUtil.tokens delim s).
Proof.
  destruct id; simpl;
    try (split; [discriminate | intros (code & E & _); discriminate E]).
  rewrite existsb_exists. split.
  - intros (tok & Hin & E). apply String.eqb_eq in E. subst. eauto.
  - intros (code & E & Hin). inversion E; subst.
    exists code. split; [exact Hin | apply String.eqb_refl].
Qed.

(** An incident is relevant exactly when one of the requested codes is a
    token of its affected-lines field. *)
Lemma relevantTo_spec ids incident :
  SpecUtil.relevantTo delim ids incident = true
  <-> exists s code,
      SpecUtil.linesAffected incident = Some s
      /\ In (VStr code) ids
      /\ In code (SpecUtil.tokens delim s).
Proof.
  unfold SpecUtil.relevantTo.
  destruct (SpecUtil.linesAffected incident) as [s |].
  - rewrite existsb_exists. split.
    + intros (id & Hin & Hid). apply isToken_spec in Hid.
      destruct Hid as (code & -> & Htok). exists s, code. auto.
    + intros (s' & code & E & Hin & Htok). inversion E; subst.
      exists (VStr code). split; [exact Hin |].
      apply isToken_spec. eauto.
  - split; [discriminate | intros (s & code & E & _); discriminate E].
Qed.

Lemma relevant_filter ids incidents :
  SpecUtil.relevant delim ids incidents
  = filter (SpecUtil.relevantTo delim ids) incidents.
Proof.
  induction incidents as [| incident rest IH]; simpl.
  - reflexivity.
  - rewrite IH. reflexivity.
Qed.

Lemma relevant_no_ids incidents : SpecUtil.relevant delim [] incidents = [].
Proof.
  induction incidents as [| incident rest IH]; simpl; [reflexivity |].
  unfold SpecUtil.relevantTo.
  destruct (SpecUtil.linesAffected incident); simpl; exact IH.
Qed.

End IncidentFilter.

(** C8: the incident filter of the specification returns the incidents,
    in feed order, whose affected-lines field has a requested code among
    its tokens, the tokens of a field being the codes it was joined from;
    with no requested code it returns nothing. *)
Theorem incident_filter_relevant_subsequence :
  forall (delim : ascii) (ids incidents : list value),
    SpecUtil.getRelevantIncidents delim (VArr ids) (VArr incidents)
    = inr (VArr (filter (SpecUtil.relevantTo delim ids) incidents))
    /\ (forall incident,
           In incident (SpecUtil.relevant delim ids incidents)
           <-> In incident incidents
               /\ exists s code,
                   SpecUtil.linesAffected incident = Some s
                   /\ In (VStr code) ids
                   /\ In code (SpecUtil.tokens delim s))
    /\ (forall codes,
           codes <> [] ->
           Forall (SpecUtil.delimFree delim) codes ->
           SpecUtil.tokens delim (SpecUtil.joinWith delim codes) = codes)
    /\ SpecUtil.relevant delim [] incidents = []
    /\ SpecUtil.getRelevantIncidents delim (VArr []) (VArr incidents)
       = inr (VArr []).
Proof.
  intros delim ids incidents.
  split; [| split; [| split; [| split]]].
  - simpl. rewrite relevant_filter. reflexivity.
  - intros incident. rewrite relevant_filter, filter_In, relevantTo_spec.
    reflexivity.
  - apply tokens_joinWith.
  - apply relevant_no_ids.
  - simpl. rewrite relevant_no_ids. reflexivity.
Qed.

Lemma incident_filter_relevant_subsequence_witness :
  SpecUtil.getRelevantIncidents "," (VArr [VStr "RD"; VStr "BL"])
    (VArr [Sample.greenOnly; Sample.redOrange])
  = inr (VArr [Sample.redOrange])
  /\ SpecUtil.tokens "," (SpecUtil.joinWith "," ["RD"; "OR"]) = ["RD"; "OR"]
  /\ SpecUtil.relevant "," [] [Sample.greenOnly; Sample.redOrange] = [].
Proof.
  pose proof (incident_filter_relevant_subsequence ","%char
                [VStr "RD"; VStr "BL"]
                [Sample.greenOnly; Sample.redOrange])
    as (Hfilter & _ & Hjoin & Hnone & _).
  split; [| split].
  - rewrite Hfilter. reflexivity.
  - apply Hjoin.
    + discriminate.
    + repeat constructor; intros H; simpl in H;
        repeat (destruct H as [H | H]; [discriminate H |]); exact H.
  - exact Hnone.
Defined.

(** ** The sort of the specification *)

Lemma minutesLeb_total x y :
  SpecUtil.minutesLeb x y = false -> SpecUtil.minutesLeb y x = true.
Proof.
  unfold SpecUtil.minutesLeb, SpecUtil.rankLeb.
  destruct (SpecUtil.minutesRank x) as [a |],
           (SpecUtil.minutesRank y) as [b |]; try reflexivity;
    try discriminate.
  rewrite Nat.leb_gt, Nat.leb_le. lia.
Qed.

Lemma insertByMinutes_sorted x l :
  SpecUtil.sortedByMinutes l = true ->
  SpecUtil.sortedByMinutes (SpecUtil.insertByMinutes x l) = true.
Proof.
  induction l as [| y rest IH]; intros Hs.
  - reflexivity.
  - simpl SpecUtil.insertByMinutes.
    destruct (SpecUtil.minutesLeb x y) eqn:Hxy.
    + change (SpecUtil.minutesLeb x y
              && SpecUtil.sortedByMinutes (y :: rest) = true).
      rewrite Hxy, Hs. reflexivity.
    + destruct rest as [| z rest'].
      * simpl. rewrite (minutesLeb_total _ _ Hxy). reflexivity.
      * change (SpecUtil.minutesLeb y z
                && SpecUtil.sortedByMinutes (z :: rest') = true) in Hs.
        apply andb_true_iff in Hs. destruct Hs as [Hyz Hrest].
        specialize (IH Hrest). simpl SpecUtil.insertByMinutes in *.
        destruct (SpecUtil.minutesLeb x z).
        -- change (SpecUtil.minutesLeb y x
                   && SpecUtil.sortedByMinutes (x :: z :: rest') = true).
           rewrite (minutesLeb_total _ _ Hxy), IH. reflexivity.
        -- change (SpecUtil.minutesLeb y z
                   && SpecUtil.sortedByMinutes
                        (z :: SpecUtil.insertByMinutes x rest') = true).
           rewrite Hyz, IH. reflexivity.
Qed.

(** The sort of the specification yields a list in ascending order of
    minutes. *)
Lemma sortByMinutes_sorted l :
  SpecUtil.sortedByMinutes (SpecUtil.sortByMinutes l) = true.
Proof.
  induction l as [| x l IH]; simpl.
  - reflexivity.
  - apply insertByMinutes_sorted. exact IH.
Qed.

(** The specification's example: boarding sorts before five minutes, and
    the incident on "RD,OR" is relevant to the codes RD and BL. *)
Example spec_end_to_end :
  SpecUtil.sortByMinutes [Sample.train "RD" "Glenmont" "5";
                          Sample.train "RD" "Glenmont" "BRD"]
  = [Sample.train "RD" "Glenmont" "BRD"; Sample.train "RD" "Glenmont" "5"]
  /\ SpecUtil.relevant "," [VStr "RD"; VStr "BL"] [Sample.redOrange]
     = [Sample.redOrange].
Proof. split; reflexivity. Qed.

(** * Further properties of wmata.ts *)

(** ** The bus path, every run *)

Lemma fetchBusTimetable_run wmataApiKey U net stop t :
  fetchBusTimetable wmataApiKey U net stop t
  = (inr (VArr []),
     (t ++ Fetch (busPredictionUrl wmataApiKey (stripNonDigits stop))
        :: match net t (busPredictionUrl wmataApiKey (stripNonDigits stop)),
                 getProp (serviceTypeEnum U) "BUS" with
           | Some _, inr transport =>
               [Fetch (incidentsUrl wmataApiKey transport)]
           | _, _ => []
           end)%list).
Proof.
  unfold fetchBusTimetable, tryCatch, bind, fetchJson.
  destruct (net t _); [| reflexivity].
  unfold lift at 1.
  destruct (getProp (serviceTypeEnum U) "BUS"); [reflexivity |].
  rewrite fetchIncidents_run. simpl. rewrite <- app_assoc. reflexivity.
Qed.

(** X1: every run of the bus path returns the empty array and calls no
    helper; it requests the bus predictions for the sanitized stop id
    and, only when that feed answered and [serviceTypeEnum.BUS] could be
    read, the incidents of that transport: two requests at most. *)
Theorem bus_run_shape :
  forall (wmataApiKey : value) (U : Util) (net : Net) (stop : string)
         (t : trace),
    exists ext,
      fetchBusTimetable wmataApiKey U net stop t
      = (inr (VArr []), (t ++ ext)%list)
      /\ ext
         = Fetch (busPredictionUrl wmataApiKey (stripNonDigits stop))
             :: match net t (busPredictionUrl wmataApiKey
                               (stripNonDigits stop)),
                      getProp (serviceTypeEnum U) "BUS" with
                | Some _, inr transport =>
                    [Fetch (incidentsUrl wmataApiKey transport)]
                | _, _ => []
                end
      /\ countEvents isFetch ext <= 2
      /\ countEvents isCall ext = 0.
Proof.
  intros key U net stop t. eexists. split; [apply fetchBusTimetable_run |].
  split; [reflexivity |].
  destruct (net t _); [destruct (getProp _ _) |]; split;
    try reflexivity; unfold countEvents; simpl; lia.
Qed.

(** ** Sanitizing the stop id *)

Lemma stripNonDigits_app a b :
  stripNonDigits (a ++ b) = stripNonDigits a ++ stripNonDigits b.
Proof.
  induction a as [| c a IH]; simpl.
  - reflexivity.
  - destruct (isDigit c); simpl; rewrite IH; reflexivity.
Qed.

Lemma stripNonDigits_digits s :
  Forall (fun c => isDigit c = true) (list_ascii_of_string s) ->
  stripNonDigits s = s.
Proof.
  induction s as [| c s IH]; simpl; intros H.
  - reflexivity.
  - inversion H as [| ? ? Hc Hs]; subst. rewrite Hc, (IH Hs). reflexivity.
Qed.

Lemma stripNonDigits_all_digits s :
  Forall (fun c => isDigit c = true) (list_ascii_of_string (stripNonDigits s)).
Proof.
  induction s as [| c s IH]; simpl.
  - constructor.
  - destruct (isDigit c) eqn:Hc; simpl; [constructor |]; assumption.
Qed.

Lemma stripNonDigits_none s :
  (forall c, In c (list_ascii_of_string s) -> isDigit c = false) ->
  stripNonDigits s = "".
Proof.
  induction s as [| c s IH]; simpl; intros H.
  - reflexivity.
  - rewrite (H c) by (left; reflexivity).
    apply IH. intros d Hd. apply H. right. exact Hd.
Qed.

(** X2: sanitizing a stop id a second time changes nothing, a stop id
    made of digits is used as it is, sanitizing goes through
    concatenation, and two queries with the same digits give the same
    run of the bus path. *)
Theorem stop_id_sanitizing_stable :
  forall (wmataApiKey : value) (U : Util) (net : Net) (stop : string),
    stripNonDigits (stripNonDigits stop) = stripNonDigits stop
    /\ (Forall (fun c => isDigit c = true) (list_ascii_of_string stop) ->
        stripNonDigits stop = stop)
    /\ (forall other,
           stripNonDigits (stop ++ other)
           = stripNonDigits stop ++ stripNonDigits other)
    /\ (forall other t,
           stripNonDigits other = stripNonDigits stop ->
           fetchBusTimetable wmataApiKey U net other t
           = fetchBusTimetable wmataApiKey U net stop t).
Proof.
  intros key U net stop. split; [| split; [| split]].
  - apply stripNonDigits_digits, stripNonDigits_all_digits.
  - apply stripNonDigits_digits.
  - intros other. apply stripNonDigits_app.
  - intros other t H. unfold fetchBusTimetable. rewrite H. reflexivity.
Qed.

Lemma stop_id_sanitizing_stable_witness :
  stripNonDigits "3004076" = "3004076"
  /\ fetchBusTimetable Sample.apiKey Sample.util Sample.net
       "stop #3004-076" []
     = fetchBusTimetable Sample.apiKey Sample.util Sample.net "3004076" [].
Proof.
  pose proof (stop_id_sanitizing_stable Sample.apiKey Sample.util
                Sample.net "3004076") as (_ & Hfix & _ & Hsame).
  split.
  - apply Hfix. repeat constructor.
  - apply Hsame. reflexivity.
Defined.

(** X3: a stop query without any digit is not rejected: the bus
    prediction request is still issued, with an empty [StopID]. *)
Theorem stop_without_digits_still_requested :
  forall (wmataApiKey : value) (U : Util) (net : Net) (stop : string)
         (t : trace),
    (forall c, In c (list_ascii_of_string stop) -> isDigit c = false) ->
    exists rest,
      snd (fetchBusTimetable wmataApiKey U net stop t)
      = (t ++ Fetch (rootUrl
                     ++ "/NextBusService.svc/json/jPredictions?StopID="
                     ++ "&api_key=" ++ toString wmataApiKey) :: rest)%list.
Proof.
  intros key U net stop t H.
  rewrite fetchBusTimetable_run, (stripNonDigits_none stop H). simpl snd.
  eexists. reflexivity.
Qed.

Lemma stop_without_digits_still_requested_witness :
  exists rest,
    snd (fetchBusTimetable Sample.apiKey Sample.util Sample.net
           "the stop outside" [])
    = Fetch "https://api.wmata.com/NextBusService.svc/json/jPredictions?StopID=&api_key=k"
        :: rest.
Proof.
  apply (stop_without_digits_still_requested Sample.apiKey Sample.util
           Sample.net "the stop outside" []).
  intros c Hc. simpl in Hc.
  repeat (destruct Hc as [<- | Hc]; [reflexivity |]). destruct Hc.
Defined.

(** ** The rail path, further runs *)

From Stdlib Require Import Sorted.

Lemma getProp_array_object v k items :
  getProp v k = inr (VArr items) -> exists props, v = VObj props.
Proof.
  destruct v; simpl; intros H; try discriminate; eauto.
Qed.

Lemma arrayFilter_not_array cb recv t :
  (forall items, recv <> VArr items) ->
  arrayFilter cb recv t = (inl TypeError, t).
Proof.
  intros H. destruct recv; try reflexivity.
  contradiction (H items). reflexivity.
Qed.

(** The callback throws on the first entry it cannot read. *)
Lemma filterM_throw items t :
  Exists (fun item => nullish item = true) items ->
  filterM keepPrediction items t = (inl TypeError, t).
Proof.
  induction items as [| x l IH]; intros H; [inversion H |].
  simpl. destruct (nullish x) eqn:Hx.
  - erewrite bind_inl by (apply keepPrediction_throw; exact Hx). reflexivity.
  - erewrite bind_inr by (apply keepPrediction_run; exact Hx).
    inversion H as [? ? Hh | ? ? Ht]; subst; [congruence |].
    erewrite bind_inl by (apply IH; exact Ht). reflexivity.
Qed.

Lemma filter_StronglySorted {A} (R : A -> A -> Prop) (f : A -> bool) l :
  StronglySorted R l -> StronglySorted R (filter f l).
Proof.
  induction 1 as [| x l Hs IH Hall]; simpl.
  - constructor.
  - destruct (f x); [| exact IH].
    constructor; [exact IH |].
    rewrite Forall_forall in *. intros y Hy.
    apply filter_In in Hy. apply Hall. tauto.
Qed.

(** A filter does not disturb an order. *)
Lemma filter_Sorted {A} (R : A -> A -> Prop) (f : A -> bool) l :
  (forall x y z, R x y -> R y z -> R x z) ->
  Sorted R l -> Sorted R (filter f l).
Proof.
  intros Htrans Hs. apply StronglySorted_Sorted, filter_StronglySorted.
  apply Sorted_StronglySorted; [exact Htrans | exact Hs].
Qed.

Section RailRuns.

Variable wmataApiKey : value.
Variable U : Util.
Variable net : Net.

(** The merge step of a station with a paired platform. *)
Lemma mergePlatforms_paired stationData predictionObj predictionObjMulti
    items sorted t :
  nullish stationData = false ->
  truthy (prop stationData "StationTogether1") = true ->
  net t (predictionUrl wmataApiKey (prop stationData "StationTogether1"))
  = Some predictionObjMulti ->
  getProp predictionObj "Trains" = inr (VArr items) ->
  nullish predictionObjMulti = false ->
  sortPredictions U
    (VArr (items ++ spread (prop predictionObjMulti "Trains"))%list)
  = inr sorted ->
  exists merged,
    mergePlatforms wmataApiKey U net stationData predictionObj t
    = (inr merged,
       (t ++ [Fetch (predictionUrl wmataApiKey
                       (prop stationData "StationTogether1"));
              Call "sortPredictions"
                [VArr (items
                       ++ spread (prop predictionObjMulti "Trains"))%list]])%list)
    /\ getProp merged "Trains" = inr sorted.
Proof.
  intros Hn Htog Hnet Htrains Hm Hsort.
  destruct (getProp_array_object _ _ _ Htrains) as [props ->].
  exists (VObj (update "Trains" sorted props)). split.
  - unfold mergePlatforms.
    erewrite bind_inr by (unfold lift; rewrite (getProp_prop _ _ Hn); reflexivity).
    rewrite Htog.
    erewrite bind_inr by (unfold lift; rewrite (getProp_prop _ _ Hn); reflexivity).
    erewrite bind_inr by (unfold fetchJson; rewrite Hnet; reflexivity).
    erewrite bind_inr by (unfold lift; rewrite Htrains; reflexivity).
    erewrite bind_inr by (unfold lift; rewrite (getProp_prop _ _ Hm); reflexivity).
    erewrite bind_inr by (unfold lift; reflexivity).
    erewrite bind_inr
      by (rewrite callHelper_sort; fold (spread (prop predictionObjMulti "Trains"));
          rewrite Hsort; reflexivity).
    unfold lift. simpl. rewrite <- app_assoc. reflexivity.
  - simpl. rewrite assoc_update. reflexivity.
Qed.

(** The branch of a resolved station from its merged predictions on. *)
Lemma stationTimetable_merged stationData predictionObj merged items
    transport t t2 :
  nullish stationData = false ->
  net t (predictionUrl wmataApiKey (prop stationData "Code"))
  = Some predictionObj ->
  mergePlatforms wmataApiKey U net stationData predictionObj
    (t ++ [Fetch (predictionUrl wmataApiKey (prop stationData "Code"))])%list
  = (inr merged, t2) ->
  getProp merged "Trains" = inr (VArr items) ->
  Forall (fun item => nullish item = false) items ->
  getProp (serviceTypeEnum U) "TRAIN" = inr transport ->
  stationTimetable wmataApiKey U net stationData t
  = (match getRelevantIncidents U (VArr (pushedLineCodes stationData))
             (incidentsOrEmpty (net t2 (incidentsUrl wmataApiKey transport)))
     with
     | inr incidents =>
         inr (aggregated (prop stationData "Name")
                         (VArr (filter keepb items)) incidents)
     | inl e => inl e
     end,
     (t2 ++ [Fetch (incidentsUrl wmataApiKey transport);
             Call "getRelevantIncidents"
               [VArr (pushedLineCodes stationData);
                incidentsOrEmpty
                  (net t2 (incidentsUrl wmataApiKey transport))]])%list).
Proof.
  intros Hn Hnet Hmerge Htrains Hitems Htr.
  unfold stationTimetable.
  erewrite bind_inr by (unfold lift; rewrite (getProp_prop _ _ Hn); reflexivity).
  erewrite bind_inr by (unfold fetchJson; rewrite Hnet; reflexivity).
  erewrite bind_inr by exact Hmerge.
  erewrite bind_inr by (unfold lift; rewrite Htrains; reflexivity).
  erewrite bind_inr
    by (unfold arrayFilter; erewrite bind_inr by (apply filterM_run; exact Hitems);
        reflexivity).
  erewrite bind_inr by (apply lineCodes_run; exact Hn).
  erewrite bind_inr by (unfold lift; rewrite Htr; reflexivity).
  erewrite bind_inr by (apply fetchIncidents_run).
  destruct (getRelevantIncidents U (VArr (pushedLineCodes stationData))
              (incidentsOrEmpty (net t2 (incidentsUrl wmataApiKey transport))))
    as [e | incidents] eqn:Hrel.
  - erewrite bind_inl
      by (rewrite callHelper_relevant, Hrel, <- app_assoc; reflexivity).
    reflexivity.
  - erewrite bind_inr
      by (rewrite callHelper_relevant, Hrel, <- app_assoc; reflexivity).
    erewrite bind_inr by (unfold lift; rewrite (getProp_prop _ _ Hn); reflexivity).
    reflexivity.
Qed.

(** The branch of a resolved station when the filter cannot run. *)
Lemma stationTimetable_filter_throws stationData predictionObj merged t t2 :
  nullish stationData = false ->
  net t (predictionUrl wmataApiKey (prop stationData "Code"))
  = Some predictionObj ->
  mergePlatforms wmataApiKey U net stationData predictionObj
    (t ++ [Fetch (predictionUrl wmataApiKey (prop stationData "Code"))])%list
  = (inr merged, t2) ->
  (forall items, prop merged "Trains" = VArr items ->
                 Exists (fun item => nullish item = true) items) ->
  exists e, stationTimetable wmataApiKey U net stationData t = (inl e, t2).
Proof.
  intros Hn Hnet Hmerge Hbad.
  unfold stationTimetable.
  erewrite bind_inr by (unfold lift; rewrite (getProp_prop _ _ Hn); reflexivity).
  erewrite bind_inr by (unfold fetchJson; rewrite Hnet; reflexivity).
  erewrite bind_inr by exact Hmerge.
  destruct (nullish merged) eqn:Hm.
  - erewrite bind_inl
      by (unfold lift; rewrite (getProp_nullish _ _ Hm); reflexivity).
    eauto.
  - erewrite bind_inr
      by (unfold lift; rewrite (getProp_prop _ _ Hm); reflexivity).
    destruct (prop merged "Trains") eqn:Htrains;
      try (erewrite bind_inl by reflexivity; eauto).
    erewrite bind_inl
      by (unfold arrayFilter; erewrite bind_inl
            by (apply filterM_throw; apply Hbad; reflexivity);
          reflexivity).
    eauto.
Qed.

End RailRuns.

(** ** Failures inside the merge step *)

Lemma mergePlatforms_paired_down wmataApiKey U net stationData predictionObj t :
  nullish stationData = false ->
  truthy (prop stationData "StationTogether1") = true ->
  net t (predictionUrl wmataApiKey (prop stationData "StationTogether1"))
  = None ->
  mergePlatforms wmataApiKey U net stationData predictionObj t
  = (inl FetchError,
     (t ++ [Fetch (predictionUrl wmataApiKey
                     (prop stationData "StationTogether1"))])%list).
Proof.
  intros Hn Htog Hnet. unfold mergePlatforms.
  erewrite bind_inr by (unfold lift; rewrite (getProp_prop _ _ Hn); reflexivity).
  rewrite Htog.
  erewrite bind_inr by (unfold lift; rewrite (getProp_prop _ _ Hn); reflexivity).
  erewrite bind_inl by (unfold fetchJson; rewrite Hnet; reflexivity).
  reflexivity.
Qed.

Lemma mergePlatforms_sort_throws wmataApiKey U net stationData predictionObj
    predictionObjMulti trains both e t :
  nullish stationData = false ->
  truthy (prop stationData "StationTogether1") = true ->
  net t (predictionUrl wmataApiKey (prop stationData "StationTogether1"))
  = Some predictionObjMulti ->
  getProp predictionObj "Trains" = inr trains ->
  nullish predictionObjMulti = false ->
  concat trains (prop predictionObjMulti "Trains") = inr both ->
  sortPredictions U both = inl e ->
  mergePlatforms wmataApiKey U net stationData predictionObj t
  = (inl e,
     (t ++ [Fetch (predictionUrl wmataApiKey
                     (prop stationData "StationTogether1"));
            Call "sortPredictions" [both]])%list).
Proof.
  intros Hn Htog Hnet Htrains Hm Hboth Hsort. unfold mergePlatforms.
  erewrite bind_inr by (unfold lift; rewrite (getProp_prop _ _ Hn); reflexivity).
  rewrite Htog.
  erewrite bind_inr by (unfold lift; rewrite (getProp_prop _ _ Hn); reflexivity).
  erewrite bind_inr by (unfold fetchJson; rewrite Hnet; reflexivity).
  erewrite bind_inr by (unfold lift; rewrite Htrains; reflexivity).
  erewrite bind_inr by (unfold lift; rewrite (getProp_prop _ _ Hm); reflexivity).
  erewrite bind_inr by (unfold lift; rewrite Hboth; reflexivity).
  erewrite bind_inl
    by (rewrite callHelper_sort, Hsort, <- app_assoc; reflexivity).
  reflexivity.
Qed.

(** A merge step that throws ends the branch of the resolved station. *)
Lemma stationTimetable_merge_fails wmataApiKey U net stationData
    predictionObj e t t2 :
  nullish stationData = false ->
  net t (predictionUrl wmataApiKey (prop stationData "Code"))
  = Some predictionObj ->
  mergePlatforms wmataApiKey U net stationData predictionObj
    (t ++ [Fetch (predictionUrl wmataApiKey (prop stationData "Code"))])%list
  = (inl e, t2) ->
  stationTimetable wmataApiKey U net stationData t = (inl e, t2).
Proof.
  intros Hn Hnet Hmerge. unfold stationTimetable.
  erewrite bind_inr by (unfold lift; rewrite (getProp_prop _ _ Hn); reflexivity).
  erewrite bind_inr by (unfold fetchJson; rewrite Hnet; reflexivity).
  erewrite bind_inl by exact Hmerge.
  reflexivity.
Qed.

(** ** Upstream failures, every station *)

(** C5, as the code has it: none of the three functions throws, whatever
    the feeds and the helpers do.  A failure of the incident feed is
    caught inside [fetchIncidents], which hands back the empty array;
    the rail path, for a station with or without a paired platform, goes
    on to filter that array and returns the station's timetable.  A
    failure of the station feed, of the prediction feed or of the paired
    platform's prediction feed is caught by the rail path's own [catch]:
    the whole result is the empty array. *)
Theorem upstream_failures_caught :
  forall (wmataApiKey : value) (U : Util) (net : Net),
    (forall transport t, exists v t',
        fetchIncidents wmataApiKey net transport t = (inr v, t'))
    /\ (forall station t, exists v t',
           fetchTrainTimetable wmataApiKey U net station t = (inr v, t'))
    /\ (forall stop t, exists v t',
           fetchBusTimetable wmataApiKey U net stop t = (inr v, t'))
    /\ (forall transport t,
           net t (incidentsUrl wmataApiKey transport) = None ->
           fst (fetchIncidents wmataApiKey net transport t) = inr (VArr []))
    /\ (forall station stations stationData predictionObj merged items
               transport incidents t t1 t2,
           net t (stationsUrl wmataApiKey) = Some stations ->
           resolveStation U station stations
             (t ++ [Fetch (stationsUrl wmataApiKey)])%list
           = (inr stationData, t1) ->
           truthy stationData = true ->
           net t1 (predictionUrl wmataApiKey (prop stationData "Code"))
           = Some predictionObj ->
           mergePlatforms wmataApiKey U net stationData predictionObj
             (t1 ++ [Fetch (predictionUrl wmataApiKey
                              (prop stationData "Code"))])%list
           = (inr merged, t2) ->
           getProp merged "Trains" = inr (VArr items) ->
           Forall (fun item => nullish item = false) items ->
           getProp (serviceTypeEnum U) "TRAIN" = inr transport ->
           net t2 (incidentsUrl wmataApiKey transport) = None ->
           getRelevantIncidents U (VArr (pushedLineCodes stationData))
             (VArr []) = inr incidents ->
           fetchTrainTimetable wmataApiKey U net station t
           = (inr (aggregated (prop stationData "Name")
                              (VArr (filter keepb items)) incidents),
              (t2 ++ [Fetch (incidentsUrl wmataApiKey transport);
                      Call "getRelevantIncidents"
                        [VArr (pushedLineCodes stationData);
                         VArr []]])%list))
    /\ (forall station t,
           net t (stationsUrl wmataApiKey) = None ->
           fst (fetchTrainTimetable wmataApiKey U net station t)
           = inr (VArr []))
    /\ (forall station stations stationData t t1,
           net t (stationsUrl wmataApiKey) = Some stations ->
           resolveStation U station stations
             (t ++ [Fetch (stationsUrl wmataApiKey)])%list
           = (inr stationData, t1) ->
           truthy stationData = true ->
           net t1 (predictionUrl wmataApiKey (prop stationData "Code"))
           = None ->
           fst (fetchTrainTimetable wmataApiKey U net station t)
           = inr (VArr []))
    /\ (forall station stations stationData predictionObj t t1,
           net t (stationsUrl wmataApiKey) = Some stations ->
           resolveStation U station stations
             (t ++ [Fetch (stationsUrl wmataApiKey)])%list
           = (inr stationData, t1) ->
           truthy stationData = true ->
           truthy (prop stationData "StationTogether1") = true ->
           net t1 (predictionUrl wmataApiKey (prop stationData "Code"))
           = Some predictionObj ->
           net (t1 ++ [Fetch (predictionUrl wmataApiKey
                                (prop stationData "Code"))])%list
               (predictionUrl wmataApiKey
                  (prop stationData "StationTogether1"))
           = None ->
           fst (fetchTrainTimetable wmataApiKey U net station t)
           = inr (VArr [])).
Proof.
  intros key U net. repeat apply conj.
  - intros transport t. apply tryCatch_returns.
  - intros station t. apply tryCatch_returns.
  - intros stop t. apply tryCatch_returns.
  - intros transport t Hnet. rewrite fetchIncidents_run, Hnet. reflexivity.
  - intros station stations sd p merged items transport incidents t t1 t2
      Hnet Hres Htr Hpred Hmerge Htrains Hitems Htransport Hinc Hrel.
    pose proof (truthy_not_nullish _ Htr) as Hn.
    rewrite (fetchTrainTimetable_resolved key U net station stations sd t t1)
      by assumption.
    apply tryCatch_inr.
    rewrite (stationTimetable_merged key U net sd p merged items transport
               t1 t2 Hn Hpred Hmerge Htrains Hitems Htransport).
    rewrite Hinc. simpl incidentsOrEmpty. rewrite Hrel. reflexivity.
  - intros station t Hnet. rewrite stations_down_run by assumption.
    reflexivity.
  - intros station stations sd t t1 Hnet Hres Htr Hpred.
    rewrite (fetchTrainTimetable_resolved key U net station stations sd t t1)
      by assumption.
    erewrite tryCatch_inl; [reflexivity |].
    apply stationTimetable_predictions_down;
      [apply truthy_not_nullish |]; assumption.
  - intros station stations sd p t t1 Hnet Hres Htr Htog Hpred Hpm.
    pose proof (truthy_not_nullish _ Htr) as Hn.
    rewrite (fetchTrainTimetable_resolved key U net station stations sd t t1)
      by assumption.
    erewrite tryCatch_inl; [reflexivity |].
    apply (stationTimetable_merge_fails key U net sd p FetchError t1 _ Hn Hpred).
    apply mergePlatforms_paired_down; assumption.
Qed.

Lemma upstream_failures_caught_witness :
  fst (fetchIncidents Sample.apiKey Sample.netDown (VStr "train") [])
  = inr (VArr [])
  /\ fst (fetchTrainTimetable Sample.apiKey Sample.util
            Sample.netIncidentsDown "Metro Center" [])
     = inr (aggregated (VStr "Metro Center")
              (VArr [Sample.glenmont5; Sample.shadyGrove2]) (VArr []))
  /\ fst (fetchTrainTimetable Sample.apiKey Sample.util
            Sample.netIncidentsDown "fort totten" [])
     = inr (aggregated (VStr "Fort Totten")
              (VArr [Sample.greenbeltBRD; Sample.glenmont5]) (VArr []))
  /\ fst (fetchTrainTimetable Sample.apiKey Sample.util Sample.netDown
            "Metro Center" []) = inr (VArr [])
  /\ fst (fetchTrainTimetable Sample.apiKey Sample.util
            Sample.netPredictionsDown "Metro Center" []) = inr (VArr [])
  /\ fst (fetchTrainTimetable Sample.apiKey Sample.util
            Faults.netSecondaryDown "fort totten" []) = inr (VArr []).
Proof.
  pose proof (upstream_failures_caught Sample.apiKey Sample.util
                Sample.netDown) as (_ & _ & _ & Hinc & _ & Hstations & _).
  pose proof (upstream_failures_caught Sample.apiKey Sample.util
                Sample.netIncidentsDown) as (_ & _ & _ & _ & Hgo & _).
  pose proof (upstream_failures_caught Sample.apiKey Sample.util
                Sample.netPredictionsDown)
    as (_ & _ & _ & _ & _ & _ & Hpred & _).
  pose proof (upstream_failures_caught Sample.apiKey Sample.util
                Faults.netSecondaryDown)
    as (_ & _ & _ & _ & _ & _ & _ & Hpaired).
  repeat apply conj.
  - apply Hinc. reflexivity.
  - rewrite (Hgo "Metro Center" Sample.stations Sample.metroCenter
               (VObj [("Trains", VArr [Sample.glenmont5; Sample.noPassengers;
                                       Sample.shadyGrove2])])
               (VObj [("Trains", VArr [Sample.glenmont5; Sample.noPassengers;
                                       Sample.shadyGrove2])])
               [Sample.glenmont5; Sample.noPassengers; Sample.shadyGrove2]
               (VStr "train") (VArr []) []
               [Fetch (stationsUrl Sample.apiKey);
                Call "stationPartialSearch"
                  [VStr "metro center"; Sample.stations]]
               [Fetch (stationsUrl Sample.apiKey);
                Call "stationPartialSearch"
                  [VStr "metro center"; Sample.stations];
                Fetch (predictionUrl Sample.apiKey (VStr "A01"))]);
      try reflexivity.
    repeat constructor.
  - rewrite (Hgo "fort totten" Sample.stations Sample.fortTotten
               (VObj [("Trains", VArr [Sample.glenmont5;
                                       Sample.noPassengers])])
               (VObj [("Trains", VArr [Sample.greenbeltBRD;
                                       Sample.noPassengers;
                                       Sample.glenmont5])])
               [Sample.greenbeltBRD; Sample.noPassengers; Sample.glenmont5]
               (VStr "train") (VArr []) []
               [Fetch (stationsUrl Sample.apiKey);
                Call "stationPartialSearch"
                  [VStr "fort totten"; Sample.stations]]
               [Fetch (stationsUrl Sample.apiKey);
                Call "stationPartialSearch"
                  [VStr "fort totten"; Sample.stations];
                Fetch (predictionUrl Sample.apiKey (VStr "B06"));
                Fetch (predictionUrl Sample.apiKey (VStr "E06"));
                Call "sortPredictions"
                  [VArr [Sample.glenmont5; Sample.noPassengers;
                         Sample.greenbeltBRD]]]);
      try reflexivity.
    repeat constructor.
  - apply Hstations. reflexivity.
  - apply (Hpred "Metro Center" Sample.stations Sample.metroCenter []
             [Fetch (stationsUrl Sample.apiKey);
              Call "stationPartialSearch"
                [VStr "metro center"; Sample.stations]]);
      reflexivity.
  - apply (Hpaired "fort totten" Sample.stations Sample.fortTotten
             (VObj [("Trains", VArr [Sample.glenmont5;
                                     Sample.noPassengers])])
             []
             [Fetch (stationsUrl Sample.apiKey);
              Call "stationPartialSearch"
                [VStr "fort totten"; Sample.stations]]);
      reflexivity.
Defined.

(** X4: for a station with a paired platform whose two prediction feeds
    answer, the rail path requests the primary platform, then the paired
    one, hands [sortPredictions] the primary list followed by the paired
    list, and returns what the helper returned with the sentinel entries
    filtered out; the incident request comes after the sort. *)
Theorem paired_station_merged_sorted_filtered :
  forall (wmataApiKey : value) (U : Util) (net : Net) (station : string)
         (stations stationData predictionObj predictionObjMulti : value)
         (items sorted : list value) (transport incidents : value)
         (t t1 : trace),
    net t (stationsUrl wmataApiKey) = Some stations ->
    resolveStation U station stations
      (t ++ [Fetch (stationsUrl wmataApiKey)])%list
    = (inr stationData, t1) ->
    truthy stationData = true ->
    truthy (prop stationData "StationTogether1") = true ->
    net t1 (predictionUrl wmataApiKey (prop stationData "Code"))
    = Some predictionObj ->
    net (t1 ++ [Fetch (predictionUrl wmataApiKey
                         (prop stationData "Code"))])%list
        (predictionUrl wmataApiKey (prop stationData "StationTogether1"))
    = Some predictionObjMulti ->
    getProp predictionObj "Trains" = inr (VArr items) ->
    nullish predictionObjMulti = false ->
    sortPredictions U
      (VArr (items ++ spread (prop predictionObjMulti "Trains"))%list)
    = inr (VArr sorted) ->
    Forall (fun item => nullish item = false) sorted ->
    getProp (serviceTypeEnum U) "TRAIN" = inr transport ->
    getRelevantIncidents U (VArr (pushedLineCodes stationData))
      (incidentsOrEmpty
         (net (t1 ++ [Fetch (predictionUrl wmataApiKey
                               (prop stationData "Code"));
                      Fetch (predictionUrl wmataApiKey
                               (prop stationData "StationTogether1"));
                      Call "sortPredictions"
                        [VArr (items ++ spread
                                 (prop predictionObjMulti "Trains"))%list]])%list
              (incidentsUrl wmataApiKey transport)))
    = inr incidents ->
    exists incidentData,
      fetchTrainTimetable wmataApiKey U net station t
      = (inr (aggregated (prop stationData "Name")
                         (VArr (filter keepb sorted)) incidents),
         (t1 ++ [Fetch (predictionUrl wmataApiKey (prop stationData "Code"));
                 Fetch (predictionUrl wmataApiKey
                          (prop stationData "StationTogether1"));
                 Call "sortPredictions"
                   [VArr (items ++ spread
                            (prop predictionObjMulti "Trains"))%list];
                 Fetch (incidentsUrl wmataApiKey transport);
                 Call "getRelevantIncidents"
                   [VArr (pushedLineCodes stationData); incidentData]])%list).
Proof.
  intros key U net station stations sd p pm items sorted transport incidents
    t t1 Hnet Hres Htr Htog Hp Hpm Htrains Hnpm Hsort Hsorted Htransport Hrel.
  pose proof (truthy_not_nullish _ Htr) as Hn.
  destruct (mergePlatforms_paired key U net sd p pm items (VArr sorted)
              (t1 ++ [Fetch (predictionUrl key (prop sd "Code"))])%list
              Hn Htog Hpm Htrains Hnpm Hsort) as (merged & Hmerge & Hmt).
  rewrite <- app_assoc in Hmerge. simpl app in Hmerge.
  eexists.
  rewrite (fetchTrainTimetable_resolved key U net station stations sd t t1)
    by assumption.
  apply tryCatch_inr.
  rewrite (stationTimetable_merged key U net sd p merged sorted transport
             t1 _ Hn Hp Hmerge Hmt Hsorted Htransport).
  rewrite Hrel, <- app_assoc. reflexivity.
Qed.

Lemma paired_station_merged_sorted_filtered_witness :
  exists incidentData,
    fetchTrainTimetable Sample.apiKey Sample.util Sample.net
      "fort totten" []
    = (inr (aggregated (VStr "Fort Totten")
              (VArr [Sample.greenbeltBRD; Sample.glenmont5])
              (VArr [Sample.redOrange])),
       [Fetch (stationsUrl Sample.apiKey);
        Call "stationPartialSearch" [VStr "fort totten"; Sample.stations];
        Fetch (predictionUrl Sample.apiKey (VStr "B06"));
        Fetch (predictionUrl Sample.apiKey (VStr "E06"));
        Call "sortPredictions"
          [VArr [Sample.glenmont5; Sample.noPassengers;
                 Sample.greenbeltBRD]];
        Fetch (incidentsUrl Sample.apiKey (VStr "train"));
        Call "getRelevantIncidents" [VArr [VStr "RD"]; incidentData]]).
Proof.
  apply (paired_station_merged_sorted_filtered Sample.apiKey Sample.util
           Sample.net "fort totten" Sample.stations Sample.fortTotten
           (VObj [("Trains", VArr [Sample.glenmont5; Sample.noPassengers])])
           (VObj [("Trains", VArr [Sample.greenbeltBRD])])
           [Sample.glenmont5; Sample.noPassengers]
           [Sample.greenbeltBRD; Sample.noPassengers; Sample.glenmont5]
           (VStr "train") (VArr [Sample.redOrange]) []
           [Fetch (stationsUrl Sample.apiKey);
            Call "stationPartialSearch"
              [VStr "fort totten"; Sample.stations]]);
    try reflexivity.
  repeat constructor.
Defined.

(** X5: when the paired platform's prediction feed fails, the rail path
    returns the empty array, although the station was resolved and the
    primary platform's predictions had arrived; neither the sort nor the
    incident request takes place. *)
Theorem paired_feed_down_collapses :
  forall (wmataApiKey : value) (U : Util) (net : Net) (station : string)
         (stations stationData predictionObj : value) (t t1 : trace),
    net t (stationsUrl wmataApiKey) = Some stations ->
    resolveStation U station stations
      (t ++ [Fetch (stationsUrl wmataApiKey)])%list
    = (inr stationData, t1) ->
    truthy stationData = true ->
    truthy (prop stationData "StationTogether1") = true ->
    net t1 (predictionUrl wmataApiKey (prop stationData "Code"))
    = Some predictionObj ->
    net (t1 ++ [Fetch (predictionUrl wmataApiKey
                         (prop stationData "Code"))])%list
        (predictionUrl wmataApiKey (prop stationData "StationTogether1"))
    = None ->
    fetchTrainTimetable wmataApiKey U net station t
    = (inr (VArr []),
       (t1 ++ [Fetch (predictionUrl wmataApiKey (prop stationData "Code"));
               Fetch (predictionUrl wmataApiKey
                        (prop stationData "StationTogether1"))])%list).
Proof.
  intros key U net station stations sd p t t1 Hnet Hres Htr Htog Hp Hpm.
  pose proof (truthy_not_nullish _ Htr) as Hn.
  rewrite (fetchTrainTimetable_resolved key U net station stations sd t t1)
    by assumption.
  eapply tryCatch_inl. unfold stationTimetable.
  erewrite bind_inr by (unfold lift; rewrite (getProp_prop _ _ Hn); reflexivity).
  erewrite bind_inr by (unfold fetchJson; rewrite Hp; reflexivity).
  erewrite bind_inl; [reflexivity |].
  unfold mergePlatforms.
  erewrite bind_inr by (unfold lift; rewrite (getProp_prop _ _ Hn); reflexivity).
  rewrite Htog.
  erewrite bind_inr by (unfold lift; rewrite (getProp_prop _ _ Hn); reflexivity).
  erewrite bind_inl by (unfold fetchJson; rewrite Hpm; reflexivity).
  rewrite <- app_assoc. reflexivity.
Qed.

Lemma paired_feed_down_collapses_witness :
  fetchTrainTimetable Sample.apiKey Sample.util Faults.netSecondaryDown
    "fort totten" []
  = (inr (VArr []),
     [Fetch (stationsUrl Sample.apiKey);
      Call "stationPartialSearch" [VStr "fort totten"; Sample.stations];
      Fetch (predictionUrl Sample.apiKey (VStr "B06"));
      Fetch (predictionUrl Sample.apiKey (VStr "E06"))]).
Proof.
  apply (paired_feed_down_collapses Sample.apiKey Sample.util
           Faults.netSecondaryDown "fort totten" Sample.stations
           Sample.fortTotten
           (VObj [("Trains", VArr [Sample.glenmont5; Sample.noPassengers])])
           []
           [Fetch (stationsUrl Sample.apiKey);
            Call "stationPartialSearch"
              [VStr "fort totten"; Sample.stations]]);
    reflexivity.
Defined.

(** X6: for a station without a paired platform, unless the prediction
    body's [Trains] is an array without [null] or [undefined] entries,
    the rail path returns the empty array and stops after the prediction
    request: an error body, a missing [Trains] key or a single unreadable
    entry discards the whole timetable, and no incident is requested. *)
Theorem unreadable_predictions_collapse :
  forall (wmataApiKey : value) (U : Util) (net : Net) (station : string)
         (stations stationData predictionObj : value) (t t1 : trace),
    net t (stationsUrl wmataApiKey) = Some stations ->
    resolveStation U station stations
      (t ++ [Fetch (stationsUrl wmataApiKey)])%list
    = (inr stationData, t1) ->
    truthy stationData = true ->
    truthy (prop stationData "StationTogether1") = false ->
    net t1 (predictionUrl wmataApiKey (prop stationData "Code"))
    = Some predictionObj ->
    (forall items, prop predictionObj "Trains" = VArr items ->
                   Exists (fun item => nullish item = true) items) ->
    fetchTrainTimetable wmataApiKey U net station t
    = (inr (VArr []),
       (t1 ++ [Fetch (predictionUrl wmataApiKey
                        (prop stationData "Code"))])%list).
Proof.
  intros key U net station stations sd p t t1 Hnet Hres Htr Htog Hp Hbad.
  pose proof (truthy_not_nullish _ Htr) as Hn.
  rewrite (fetchTrainTimetable_resolved key U net station stations sd t t1)
    by assumption.
  destruct (stationTimetable_filter_throws key U net sd p p t1
              (t1 ++ [Fetch (predictionUrl key (prop sd "Code"))])%list
              Hn Hp (mergePlatforms_unpaired key U net sd p _ Hn Htog) Hbad)
    as [e He].
  eapply tryCatch_inl. exact He.
Qed.

Lemma unreadable_predictions_collapse_witness :
  fetchTrainTimetable Sample.apiKey Sample.util Faults.netDenied
    "Metro Center" []
  = (inr (VArr []),
     [Fetch (stationsUrl Sample.apiKey);
      Call "stationPartialSearch" [VStr "metro center"; Sample.stations];
      Fetch (predictionUrl Sample.apiKey (VStr "A01"))])
  /\ fetchTrainTimetable Sample.apiKey Sample.util Faults.netNullEntry
       "Metro Center" []
     = (inr (VArr []),
        [Fetch (stationsUrl Sample.apiKey);
         Call "stationPartialSearch" [VStr "metro center"; Sample.stations];
         Fetch (predictionUrl Sample.apiKey (VStr "A01"))]).
Proof.
  split.
  - apply (unreadable_predictions_collapse Sample.apiKey Sample.util
             Faults.netDenied "Metro Center" Sample.stations
             Sample.metroCenter Faults.denied []
             [Fetch (stationsUrl Sample.apiKey);
              Call "stationPartialSearch"
                [VStr "metro center"; Sample.stations]]);
      try reflexivity.
    intros items H. discriminate H.
  - apply (unreadable_predictions_collapse Sample.apiKey Sample.util
             Faults.netNullEntry "Metro Center" Sample.stations
             Sample.metroCenter
             (VObj [("Trains", VArr [Sample.glenmont5; VNull])]) []
             [Fetch (stationsUrl Sample.apiKey);
              Call "stationPartialSearch"
                [VStr "metro center"; Sample.stations]]);
      try reflexivity.
    intros items H. inversion H; subst.
    right. left. reflexivity.
Defined.

(** ** Order of the paired station's predictions *)

Lemma rankLeb_trans a b c :
  SpecUtil.rankLeb a b = true -> SpecUtil.rankLeb b c = true ->
  SpecUtil.rankLeb a c = true.
Proof.
  destruct a as [x |], b as [y |], c as [z |]; simpl; try discriminate;
    try reflexivity.
  rewrite !Nat.leb_le. lia.
Qed.

Lemma sortedByMinutes_Sorted l :
  SpecUtil.sortedByMinutes l = true ->
  Sorted (fun x y => SpecUtil.minutesLeb x y = true) l.
Proof.
  induction l as [| x rest IH]; intros H; [constructor |].
  destruct rest as [| y rest'].
  - repeat constructor.
  - change (SpecUtil.minutesLeb x y
            && SpecUtil.sortedByMinutes (y :: rest') = true) in H.
    apply andb_true_iff in H. destruct H as [Hxy Hrest].
    constructor; [apply IH; exact Hrest | constructor; exact Hxy].
Qed.

(** X7: for a station with a paired platform, the predictions the rail
    path returns are in whatever transitive order the list returned by
    [sortPredictions] is in: the filter that follows the sort removes
    entries and moves none. *)
Theorem paired_output_keeps_sort_order :
  forall (wmataApiKey : value) (U : Util) (net : Net) (station : string)
         (stations stationData name incidents : value)
         (predictions : list value) (t t1 t' : trace)
         (R : value -> value -> Prop),
    (forall x y z, R x y -> R y z -> R x z) ->
    (forall input output,
        sortPredictions U input = inr (VArr output) -> Sorted R output) ->
    net t (stationsUrl wmataApiKey) = Some stations ->
    resolveStation U station stations
      (t ++ [Fetch (stationsUrl wmataApiKey)])%list
    = (inr stationData, t1) ->
    truthy (prop stationData "StationTogether1") = true ->
    fetchTrainTimetable wmataApiKey U net station t
    = (inr (aggregated name (VArr predictions) incidents), t') ->
    Sorted R predictions.
Proof.
  intros key U net station stations sd name incidents predictions t t1 t' R
    Htrans Hsorts Hnet Hres Htog Hrun.
  apply fetchTrainTimetable_inv in Hrun.
  destruct Hrun as (stations' & sd' & t1' & Hnet' & Hres' & Htr & Hrun).
  rewrite Hnet in Hnet'. inversion Hnet'; subst stations'.
  rewrite Hres in Hres'. inversion Hres'; subst sd' t1'.
  apply stationTimetable_inv in Hrun.
  destruct Hrun as (p & merged & items & incs & t2 & Hn & Hp & Hm & Htrains
                    & Hall & Hresult).
  inversion Hresult; subst.
  apply mergePlatforms_inv in Hm.
  destruct Hm as [(Hfalse & _) | (_ & pm & both & sorted & _ & _ & Hsort & Hmt & _)].
  - congruence.
  - rewrite Hmt in Htrains. inversion Htrains; subst sorted.
    apply filter_Sorted; [exact Htrans |].
    eapply Hsorts. exact Hsort.
Qed.

Lemma paired_output_keeps_sort_order_witness :
  Sorted (fun x y => SpecUtil.minutesLeb x y = true)
    [Sample.greenbeltBRD; Sample.glenmont5].
Proof.
  apply (paired_output_keeps_sort_order Sample.apiKey Sample.util
           Sample.net "fort totten" Sample.stations Sample.fortTotten
           (VStr "Fort Totten") (VArr [Sample.redOrange])
           [Sample.greenbeltBRD; Sample.glenmont5] []
           [Fetch (stationsUrl Sample.apiKey);
            Call "stationPartialSearch"
              [VStr "fort totten"; Sample.stations]]
           [Fetch (stationsUrl Sample.apiKey);
            Call "stationPartialSearch"
              [VStr "fort totten"; Sample.stations];
            Fetch (predictionUrl Sample.apiKey (VStr "B06"));
            Fetch (predictionUrl Sample.apiKey (VStr "E06"));
            Call "sortPredictions"
              [VArr [Sample.glenmont5; Sample.noPassengers;
                     Sample.greenbeltBRD]];
            Fetch (incidentsUrl Sample.apiKey (VStr "train"));
            Call "getRelevantIncidents"
              [VArr [VStr "RD"]; Sample.incidents]]);
    try reflexivity.
  - intros x y z. unfold SpecUtil.minutesLeb. apply rankLeb_trans.
  - intros input output H. destruct input; try discriminate H.
    simpl in H. inversion H; subst.
    apply sortedByMinutes_Sorted, sortByMinutes_sorted.
Defined.

(** ** Helpers that throw *)

(** X8: an exception thrown by a helper is swallowed like a feed failure
    and the result is the empty array, for a station with or without a
    paired platform: when the partial search throws, the fuzzy search is
    not tried; when the fuzzy search throws, no prediction is requested;
    when [sortPredictions] throws, no incident is requested; when the
    incident filter throws, the predictions already fetched, merged and
    filtered are dropped. *)
Theorem helper_exception_collapses :
  forall (wmataApiKey : value) (U : Util) (net : Net) (station : string)
         (stations : value) (t : trace),
    net t (stationsUrl wmataApiKey) = Some stations ->
    (forall e,
        stationPartialSearch U (VStr (toLowerCase station)) stations
        = inl e ->
        fetchTrainTimetable wmataApiKey U net station t
        = (inr (VArr []),
           (t ++ [Fetch (stationsUrl wmataApiKey);
                  Call "stationPartialSearch"
                    [VStr (toLowerCase station); stations]])%list))
    /\ (forall r e,
           stationPartialSearch U (VStr (toLowerCase station)) stations
           = inr r ->
           truthy r = false ->
           stationFuzzySearch U (VStr (toLowerCase station)) stations
           = inl e ->
           fetchTrainTimetable wmataApiKey U net station t
           = (inr (VArr []),
              (t ++ [Fetch (stationsUrl wmataApiKey);
                     Call "stationPartialSearch"
                       [VStr (toLowerCase station); stations];
                     Call "stationFuzzySearch"
                       [VStr (toLowerCase station); stations]])%list))
    /\ (forall stationData predictionObj predictionObjMulti trains both e t1,
           resolveStation U station stations
             (t ++ [Fetch (stationsUrl wmataApiKey)])%list
           = (inr stationData, t1) ->
           truthy stationData = true ->
           truthy (prop stationData "StationTogether1") = true ->
           net t1 (predictionUrl wmataApiKey (prop stationData "Code"))
           = Some predictionObj ->
           net (t1 ++ [Fetch (predictionUrl wmataApiKey
                                (prop stationData "Code"))])%list
               (predictionUrl wmataApiKey
                  (prop stationData "StationTogether1"))
           = Some predictionObjMulti ->
           getProp predictionObj "Trains" = inr trains ->
           nullish predictionObjMulti = false ->
           concat trains (prop predictionObjMulti "Trains") = inr both ->
           sortPredictions U both = inl e ->
           fetchTrainTimetable wmataApiKey U net station t
           = (inr (VArr []),
              (t1 ++ [Fetch (predictionUrl wmataApiKey
                               (prop stationData "Code"));
                      Fetch (predictionUrl wmataApiKey
                               (prop stationData "StationTogether1"));
                      Call "sortPredictions" [both]])%list))
    /\ (forall stationData predictionObj merged items transport e t1 t2,
           resolveStation U station stations
             (t ++ [Fetch (stationsUrl wmataApiKey)])%list
           = (inr stationData, t1) ->
           truthy stationData = true ->
           net t1 (predictionUrl wmataApiKey (prop stationData "Code"))
           = Some predictionObj ->
           mergePlatforms wmataApiKey U net stationData predictionObj
             (t1 ++ [Fetch (predictionUrl wmataApiKey
                              (prop stationData "Code"))])%list
           = (inr merged, t2) ->
           getProp merged "Trains" = inr (VArr items) ->
           Forall (fun item => nullish item = false) items ->
           getProp (serviceTypeEnum U) "TRAIN" = inr transport ->
           getRelevantIncidents U (VArr (pushedLineCodes stationData))
             (incidentsOrEmpty (net t2 (incidentsUrl wmataApiKey transport)))
           = inl e ->
           fetchTrainTimetable wmataApiKey U net station t
           = (inr (VArr []),
              (t2 ++ [Fetch (incidentsUrl wmataApiKey transport);
                      Call "getRelevantIncidents"
                        [VArr (pushedLineCodes stationData);
                         incidentsOrEmpty
                           (net t2 (incidentsUrl wmataApiKey
                                      transport))]])%list)).
Proof.
  intros key U net station stations t Hnet. split; [| split; [| split]].
  - intros e Hp. unfold fetchTrainTimetable. eapply tryCatch_inl.
    erewrite bind_inr by (unfold fetchJson; rewrite Hnet; reflexivity).
    erewrite bind_inl by (apply resolveStation_throw; exact Hp).
    rewrite <- app_assoc. reflexivity.
  - intros r e Hp Hr Hf. unfold fetchTrainTimetable. eapply tryCatch_inl.
    erewrite bind_inr by (unfold fetchJson; rewrite Hnet; reflexivity).
    erewrite bind_inl
      by (rewrite (resolveStation_miss U station stations r _ Hp Hr), Hf;
          reflexivity).
    rewrite <- app_assoc. reflexivity.
  - intros sd p pm trains both e t1 Hres Htr Htog Hp Hpm Htrains Hnpm Hboth
      Hsort.
    pose proof (truthy_not_nullish _ Htr) as Hn.
    rewrite (fetchTrainTimetable_resolved key U net station stations sd t t1)
      by assumption.
    eapply tryCatch_inl.
    apply (stationTimetable_merge_fails key U net sd p e t1 _ Hn Hp).
    rewrite (mergePlatforms_sort_throws key U net sd p pm trains both e _
               Hn Htog Hpm Htrains Hnpm Hboth Hsort).
    rewrite <- app_assoc. reflexivity.
  - intros sd p merged items transport e t1 t2 Hres Htr Hp Hmerge Htrains
      Hitems Htransport Hrel.
    pose proof (truthy_not_nullish _ Htr) as Hn.
    rewrite (fetchTrainTimetable_resolved key U net station stations sd t t1)
      by assumption.
    eapply tryCatch_inl.
    rewrite (stationTimetable_merged key U net sd p merged items transport
               t1 t2 Hn Hp Hmerge Htrains Hitems Htransport).
    rewrite Hrel. reflexivity.
Qed.

Lemma helper_exception_collapses_witness :
  fetchTrainTimetable Sample.apiKey Faults.utilPartialThrows Sample.net
    "Metro Center" []
  = (inr (VArr []),
     [Fetch (stationsUrl Sample.apiKey);
      Call "stationPartialSearch" [VStr "metro center"; Sample.stations]])
  /\ fetchTrainTimetable Sample.apiKey Faults.utilFuzzyThrows Sample.net
       "zzzznotastation" []
     = (inr (VArr []),
        [Fetch (stationsUrl Sample.apiKey);
         Call "stationPartialSearch"
           [VStr "zzzznotastation"; Sample.stations];
         Call "stationFuzzySearch"
           [VStr "zzzznotastation"; Sample.stations]])
  /\ fetchTrainTimetable Sample.apiKey Faults.utilSortThrows Sample.net
       "fort totten" []
     = (inr (VArr []),
        [Fetch (stationsUrl Sample.apiKey);
         Call "stationPartialSearch" [VStr "fort totten"; Sample.stations];
         Fetch (predictionUrl Sample.apiKey (VStr "B06"));
         Fetch (predictionUrl Sample.apiKey (VStr "E06"));
         Call "sortPredictions"
           [VArr [Sample.glenmont5; Sample.noPassengers;
                  Sample.greenbeltBRD]]])
  /\ fetchTrainTimetable Sample.apiKey Faults.utilFilterThrows Sample.net
       "Metro Center" []
     = (inr (VArr []),
        [Fetch (stationsUrl Sample.apiKey);
         Call "stationPartialSearch" [VStr "metro center"; Sample.stations];
         Fetch (predictionUrl Sample.apiKey (VStr "A01"));
         Fetch (incidentsUrl Sample.apiKey (VStr "train"));
         Call "getRelevantIncidents"
           [VArr [VStr "RD"; VUndefined]; Sample.incidents]])
  /\ fetchTrainTimetable Sample.apiKey Faults.utilFilterThrows Sample.net
       "fort totten" []
     = (inr (VArr []),
        [Fetch (stationsUrl Sample.apiKey);
         Call "stationPartialSearch" [VStr "fort totten"; Sample.stations];
         Fetch (predictionUrl Sample.apiKey (VStr "B06"));
         Fetch (predictionUrl Sample.apiKey (VStr "E06"));
         Call "sortPredictions"
           [VArr [Sample.glenmont5; Sample.noPassengers;
                  Sample.greenbeltBRD]];
         Fetch (incidentsUrl Sample.apiKey (VStr "train"));
         Call "getRelevantIncidents"
           [VArr [VStr "RD"]; Sample.incidents]]).
Proof.
  repeat apply conj.
  - apply (proj1 (helper_exception_collapses Sample.apiKey
                    Faults.utilPartialThrows Sample.net "Metro Center"
                    Sample.stations [] eq_refl) HelperError).
    reflexivity.
  - apply (proj1 (proj2 (helper_exception_collapses Sample.apiKey
                           Faults.utilFuzzyThrows Sample.net
                           "zzzznotastation" Sample.stations [] eq_refl))
             VUndefined HelperError); reflexivity.
  - apply (proj1 (proj2 (proj2 (helper_exception_collapses Sample.apiKey
                                  Faults.utilSortThrows Sample.net
                                  "fort totten" Sample.stations []
                                  eq_refl)))
             Sample.fortTotten
             (VObj [("Trains", VArr [Sample.glenmont5;
                                     Sample.noPassengers])])
             (VObj [("Trains", VArr [Sample.greenbeltBRD])])
             (VArr [Sample.glenmont5; Sample.noPassengers])
             (VArr [Sample.glenmont5; Sample.noPassengers;
                    Sample.greenbeltBRD])
             HelperError
             [Fetch (stationsUrl Sample.apiKey);
              Call "stationPartialSearch"
                [VStr "fort totten"; Sample.stations]]);
      reflexivity.
  - apply (proj2 (proj2 (proj2 (helper_exception_collapses Sample.apiKey
                                  Faults.utilFilterThrows Sample.net
                                  "Metro Center" Sample.stations []
                                  eq_refl)))
             Sample.metroCenter
             (VObj [("Trains", VArr [Sample.glenmont5; Sample.noPassengers;
                                     Sample.shadyGrove2])])
             (VObj [("Trains", VArr [Sample.glenmont5; Sample.noPassengers;
                                     Sample.shadyGrove2])])
             [Sample.glenmont5; Sample.noPassengers; Sample.shadyGrove2]
             (VStr "train") HelperError
             [Fetch (stationsUrl Sample.apiKey);
              Call "stationPartialSearch"
                [VStr "metro center"; Sample.stations]]
             [Fetch (stationsUrl Sample.apiKey);
              Call "stationPartialSearch"
                [VStr "metro center"; Sample.stations];
              Fetch (predictionUrl Sample.apiKey (VStr "A01"))]);
      try reflexivity.
    repeat constructor.
  - apply (proj2 (proj2 (proj2 (helper_exception_collapses Sample.apiKey
                                  Faults.utilFilterThrows Sample.net
                                  "fort totten" Sample.stations []
                                  eq_refl)))
             Sample.fortTotten
             (VObj [("Trains", VArr [Sample.glenmont5;
                                     Sample.noPassengers])])
             (VObj [("Trains", VArr [Sample.greenbeltBRD;
                                     Sample.noPassengers;
                                     Sample.glenmont5])])
             [Sample.greenbeltBRD; Sample.noPassengers; Sample.glenmont5]
             (VStr "train") HelperError
             [Fetch (stationsUrl Sample.apiKey);
              Call "stationPartialSearch"
                [VStr "fort totten"; Sample.stations]]
             [Fetch (stationsUrl Sample.apiKey);
              Call "stationPartialSearch"
                [VStr "fort totten"; Sample.stations];
              Fetch (predictionUrl Sample.apiKey (VStr "B06"));
              Fetch (predictionUrl Sample.apiKey (VStr "E06"));
              Call "sortPredictions"
                [VArr [Sample.glenmont5; Sample.noPassengers;
                       Sample.greenbeltBRD]]]);
      try reflexivity.
    repeat constructor.
Defined.

(** ** What the rail path can return *)

(** X9: every run of the rail path returns one of three things: [null],
    the empty array, or an object whose [predictions] are an array none
    of whose entries passes for a sentinel. *)
Theorem rail_result_shape :
  forall (wmataApiKey : value) (U : Util) (net : Net) (station : string)
         (t : trace),
    fst (fetchTrainTimetable wmataApiKey U net station t) = inr VNull
    \/ fst (fetchTrainTimetable wmataApiKey U net station t) = inr (VArr [])
    \/ exists name predictions incidents,
        fst (fetchTrainTimetable wmataApiKey U net station t)
        = inr (aggregated name (VArr predictions) incidents)
        /\ Forall (fun item => ~ sentinel item) predictions.
Proof.
  intros key U net station t.
  unfold fetchTrainTimetable at 1 2 3. unfold tryCatch.
  match goal with
  | |- context [match ?body with _ => _ end] =>
      destruct body as [[e | r] t0] eqn:Hbody
  end.
  - right. left. reflexivity.
  - apply bind_inv in Hbody. destruct Hbody as (stations & t1 & _ & H).
    apply bind_inv in H. destruct H as (sd & t2 & _ & H).
    destruct (truthy sd).
    + apply stationTimetable_inv in H.
      destruct H as (p & merged & items & incs & t3 & _ & _ & _ & _ & _ & ->).
      right. right. exists (prop sd "Name"), (filter keepb items), incs.
      split; [reflexivity |].
      apply Forall_forall. intros item Hin. apply filter_In in Hin.
      apply keepb_spec. tauto.
    + apply ret_inv in H. destruct H as [<- _]. left. reflexivity.
Qed.

(** X10: the rail path returns [null] only in the not-found case: the
    station feed answered, the partial search and then the fuzzy search
    each returned a falsy value, and nothing else happened in the run. *)
Theorem null_only_when_not_found :
  forall (wmataApiKey : value) (U : Util) (net : Net) (station : string)
         (t t' : trace),
    fetchTrainTimetable wmataApiKey U net station t = (inr VNull, t') ->
    exists stations r1 r2,
      net t (stationsUrl wmataApiKey) = Some stations
      /\ stationPartialSearch U (VStr (toLowerCase station)) stations
         = inr r1
      /\ truthy r1 = false
      /\ stationFuzzySearch U (VStr (toLowerCase station)) stations = inr r2
      /\ truthy r2 = false
      /\ t' = (t ++ [Fetch (stationsUrl wmataApiKey);
                     Call "stationPartialSearch"
                       [VStr (toLowerCase station); stations];
                     Call "stationFuzzySearch"
                       [VStr (toLowerCase station); stations]])%list.
Proof.
  intros key U net station t t' H.
  unfold fetchTrainTimetable, tryCatch in H.
  match type of H with
  | (match ?body with _ => _ end) = _ =>
      destruct body as [[e | r] t0] eqn:Hbody
  end; [discriminate H |].
  inversion H; subst r t0; clear H.
  apply bind_inv in Hbody. destruct Hbody as (stations & t1 & Hst & H).
  unfold fetchJson in Hst.
  destruct (net t (stationsUrl key)) as [st' |] eqn:Hnet;
    inversion Hst; subst st' t1; clear Hst.
  apply bind_inv in H. destruct H as (sd & t2 & Hres & H).
  destruct (truthy sd) eqn:Hsd.
  { apply stationTimetable_inv in H.
    destruct H as (? & ? & ? & ? & ? & _ & _ & _ & _ & _ & Habs).
    discriminate Habs. }
  apply ret_inv in H. destruct H as [_ ->].
  destruct (stationPartialSearch U (VStr (toLowerCase station)) stations)
    as [e | r1] eqn:Hp.
  { rewrite (resolveStation_throw U station stations e _ Hp) in Hres.
    discriminate Hres. }
  destruct (truthy r1) eqn:Hr1.
  { rewrite (resolveStation_hit U station stations r1 _ Hp Hr1) in Hres.
    inversion Hres; subst. congruence. }
  rewrite (resolveStation_miss U station stations r1 _ Hp Hr1) in Hres.
  inversion Hres as [[Hf Ht]].
  exists stations, r1, sd. rewrite <- app_assoc. simpl. auto 10.
Qed.

Lemma null_only_when_not_found_witness :
  exists stations r1 r2,
    Sample.net [] (stationsUrl Sample.apiKey) = Some stations
    /\ stationPartialSearch Sample.util (VStr "zzzznotastation") stations
       = inr r1
    /\ truthy r1 = false
    /\ stationFuzzySearch Sample.util (VStr "zzzznotastation") stations
       = inr r2
    /\ truthy r2 = false
    /\ [Fetch (stationsUrl Sample.apiKey);
        Call "stationPartialSearch"
          [VStr "zzzznotastation"; Sample.stations];
        Call "stationFuzzySearch"
          [VStr "zzzznotastation"; Sample.stations]]
       = ([] ++ [Fetch (stationsUrl Sample.apiKey);
                 Call "stationPartialSearch"
                   [VStr "zzzznotastation"; stations];
                 Call "stationFuzzySearch"
                   [VStr "zzzznotastation"; stations]])%list.
Proof.
  apply (null_only_when_not_found Sample.apiKey Sample.util Sample.net
           "zzzznotastation" []).
  reflexivity.
Defined.

(** ** Line codes, the cases where the slip does not show *)

(** X11: the list of line codes never has more than four entries, and it
    is the list of the record's non-null line codes, in order, whenever
    LineCode2 is [null] or the record happens to carry the same value
    under [lineCode2]. *)
Theorem line_codes_when_second_is_null :
  forall (stationData : value) (t : trace),
    nullish stationData = false ->
    (exists lines,
        lineCodes stationData t = (inr lines, t)
        /\ List.length lines <= 4)
    /\ (isNull (prop stationData "LineCode2") = true
        \/ prop stationData "lineCode2" = prop stationData "LineCode2" ->
        lineCodes stationData t = (inr (specLineCodes stationData), t)).
Proof.
  intros sd t Hn. rewrite (lineCodes_run sd t Hn). split.
  - eexists. split; [reflexivity |].
    unfold pushedLineCodes, pushIf.
    destruct (isNull (prop sd "LineCode1")), (isNull (prop sd "LineCode2")),
      (isNull (prop sd "LineCode3")), (isNull (prop sd "LineCode4"));
      simpl; lia.
  - intros H. unfold pushedLineCodes, specLineCodes, pushIf. simpl filter.
    destruct H as [H | H].
    + rewrite H. simpl negb.
      destruct (isNull (prop sd "LineCode1")),
        (isNull (prop sd "LineCode3")), (isNull (prop sd "LineCode4"));
        reflexivity.
    + rewrite H.
      destruct (isNull (prop sd "LineCode1")),
        (isNull (prop sd "LineCode2")),
        (isNull (prop sd "LineCode3")), (isNull (prop sd "LineCode4"));
        reflexivity.
Qed.

Lemma line_codes_when_second_is_null_witness :
  (exists lines,
      lineCodes Sample.fortTotten [] = (inr lines, [])
      /\ List.length lines <= 4)
  /\ (isNull (prop Sample.fortTotten "LineCode2") = true
      \/ prop Sample.fortTotten "lineCode2"
         = prop Sample.fortTotten "LineCode2" ->
      lineCodes Sample.fortTotten []
      = (inr (specLineCodes Sample.fortTotten), [])).
Proof.
  apply (line_codes_when_second_is_null Sample.fortTotten []).
  reflexivity.
Defined.

(** ** Letter case of the query *)

Lemma lowerAscii_idempotent c : lowerAscii (lowerAscii c) = lowerAscii c.
Proof. destruct c as [[] [] [] [] [] [] [] []]; reflexivity. Qed.

Lemma toLowerCase_idempotent s : toLowerCase (toLowerCase s) = toLowerCase s.
Proof.
  induction s as [| c s IH]; simpl.
  - reflexivity.
  - rewrite lowerAscii_idempotent, IH. reflexivity.
Qed.

(** X12: the rail path does not see the letter case of the query: two
    queries that differ only in the case of ASCII letters give the same
    run, and so does a query and its lower-cased form. *)
Theorem rail_query_case_insensitive :
  forall (wmataApiKey : value) (U : Util) (net : Net) (station : string)
         (t : trace),
    fetchTrainTimetable wmataApiKey U net (toLowerCase station) t
    = fetchTrainTimetable wmataApiKey U net station t
    /\ (forall other,
           toLowerCase other = toLowerCase station ->
           fetchTrainTimetable wmataApiKey U net other t
           = fetchTrainTimetable wmataApiKey U net station t).
Proof.
  intros key U net station t.
  assert (Hsame : forall a b, toLowerCase a = toLowerCase b ->
                  fetchTrainTimetable key U net a t
                  = fetchTrainTimetable key U net b t).
  { intros a b H. unfold fetchTrainTimetable, resolveStation.
    rewrite H. reflexivity. }
  split.
  - apply Hsame, toLowerCase_idempotent.
  - intros other H. apply Hsame. exact H.
Qed.

Lemma rail_query_case_insensitive_witness :
  fetchTrainTimetable Sample.apiKey Sample.util Sample.net "METRO center" []
  = fetchTrainTimetable Sample.apiKey Sample.util Sample.net
      "Metro Center" [].
Proof.
  apply (proj2 (rail_query_case_insensitive Sample.apiKey Sample.util
                  Sample.net "Metro Center" [])).
  reflexivity.
Defined.

(** ** How much a run does *)

Section AtMost.

(** A selection of events that looks at the kind of event only. *)
Variable p : event -> bool.
Variables pf pc : bool.
Hypothesis p_fetch : forall url, p (Fetch url) = pf.
Hypothesis p_call : forall fn args, p (Call fn args) = pc.

Lemma emitsAtMost_silent {A} (m : M A) :
  (forall t, snd (m t) = t) -> emitsAtMost p 0 m.
Proof.
  intros H t. exists []. rewrite app_nil_r, H. split; [reflexivity |].
  unfold countEvents. simpl. lia.
Qed.

Lemma emitsAtMost_ret {A} (a : A) : emitsAtMost p 0 (ret a).
Proof. apply emitsAtMost_silent. reflexivity. Qed.

Lemma emitsAtMost_throw {A} (e : error) : emitsAtMost p 0 (@throw A e).
Proof. apply emitsAtMost_silent. reflexivity. Qed.

Lemma emitsAtMost_lift {A} (r : Exc A) : emitsAtMost p 0 (lift r).
Proof. apply emitsAtMost_silent. reflexivity. Qed.

Lemma countEvents_app (a b : trace) :
  countEvents p (a ++ b)%list = countEvents p a + countEvents p b.
Proof. unfold countEvents. rewrite filter_app, length_app. reflexivity. Qed.

Lemma emitsAtMost_bind {A B} (m : M A) (f : A -> M B) n1 n2 :
  emitsAtMost p n1 m -> (forall a, emitsAtMost p n2 (f a)) ->
  emitsAtMost p (n1 + n2) (bind m f).
Proof.
  intros Hm Hf t. destruct (Hm t) as (ext1 & E1 & F1). unfold bind.
  destruct (m t) as [[e | a] t1]; simpl in E1; subst t1.
  - exists ext1. split; [reflexivity | lia].
  - destruct (Hf a (t ++ ext1)%list) as (ext2 & E2 & F2).
    exists (ext1 ++ ext2)%list. rewrite E2, app_assoc, countEvents_app.
    split; [reflexivity | lia].
Qed.

Lemma emitsAtMost_tryCatch {A} (m : M A) (a0 : A) n :
  emitsAtMost p n m -> emitsAtMost p n (tryCatch m (fun _ => ret a0)).
Proof.
  intros Hm t. rewrite tryCatch_snd. apply Hm.
Qed.

Lemma emitsAtMost_if {A} (b : bool) (m1 m2 : M A) n1 n2 :
  emitsAtMost p n1 m1 -> emitsAtMost p n2 m2 ->
  emitsAtMost p (Nat.max n1 n2) (if b then m1 else m2).
Proof.
  intros H1 H2 t. destruct b.
  - destruct (H1 t) as (ext & E & F). exists ext. split; [exact E | lia].
  - destruct (H2 t) as (ext & E & F). exists ext. split; [exact E | lia].
Qed.

Lemma emitsAtMost_fetchJson net url :
  emitsAtMost p (Nat.b2n pf) (fetchJson net url).
Proof.
  intros t. exists [Fetch url]. split; [reflexivity |].
  unfold countEvents. simpl. rewrite p_fetch. destruct pf; simpl; lia.
Qed.

Lemma emitsAtMost_callHelper U name args :
  emitsAtMost p (Nat.b2n pc) (callHelper U name args).
Proof.
  intros t. unfold callHelper. destruct (imported U name).
  - exists [Call name args]. split; [reflexivity |].
    unfold countEvents. simpl. rewrite p_call. destruct pc; simpl; lia.
  - exists []. rewrite app_nil_r. split; [reflexivity |].
    unfold countEvents. simpl. lia.
Qed.

Lemma keepPrediction_silent item t : snd (keepPrediction item t) = t.
Proof.
  destruct (nullish item) eqn:Hn.
  - rewrite keepPrediction_throw by exact Hn. reflexivity.
  - rewrite keepPrediction_run by exact Hn. reflexivity.
Qed.

Lemma filterM_silent items t : snd (filterM keepPrediction items t) = t.
Proof.
  induction items as [| x l IH]; simpl; [reflexivity |].
  unfold bind at 1. pose proof (keepPrediction_silent x t) as Hx.
  destruct (keepPrediction x t) as [[e | k] t1]; simpl in Hx; subst t1;
    [reflexivity |].
  unfold bind. specialize (IH).
  destruct (filterM keepPrediction l t) as [[e | kept] t1]; simpl in IH;
    subst t1; reflexivity.
Qed.

Lemma arrayFilter_silent recv t :
  snd (arrayFilter keepPrediction recv t) = t.
Proof.
  destruct recv; try reflexivity. unfold arrayFilter, bind.
  pose proof (filterM_silent items t) as H.
  destruct (filterM keepPrediction items t) as [[e | kept] t1]; simpl in H;
    subst t1; reflexivity.
Qed.

Lemma lineCodes_silent stationData t : snd (lineCodes stationData t) = t.
Proof.
  destruct (nullish stationData) eqn:Hn.
  - unfold lineCodes, bind, lift. rewrite (getProp_nullish _ _ Hn).
    reflexivity.
  - rewrite lineCodes_run by exact Hn. reflexivity.
Qed.

Lemma emitsAtMost_weaken {A} (m : M A) n n' :
  emitsAtMost p n m -> n <= n' -> emitsAtMost p n' m.
Proof.
  intros H Hle t. destruct (H t) as (ext & E & F).
  exists ext. split; [exact E | lia].
Qed.

Ltac atmost_step :=
  first
    [ apply emitsAtMost_ret
    | apply emitsAtMost_lift
    | apply emitsAtMost_fetchJson
    | apply emitsAtMost_callHelper
    | apply emitsAtMost_silent; intros; apply arrayFilter_silent
    | apply emitsAtMost_silent; intros; apply lineCodes_silent
    | apply emitsAtMost_tryCatch
    | eapply emitsAtMost_bind; [| intros]
    | eapply emitsAtMost_if ].

Lemma fetchTrainTimetable_atMost wmataApiKey U net station :
  emitsAtMost p (4 * Nat.b2n pf + 4 * Nat.b2n pc)
    (fetchTrainTimetable wmataApiKey U net station).
Proof.
  eapply emitsAtMost_weaken.
  - unfold fetchTrainTimetable, resolveStation, stationTimetable,
      mergePlatforms, fetchIncidents.
    repeat atmost_step.
  - destruct pf, pc; simpl; lia.
Qed.

End AtMost.

(** X13: a run of the rail path issues at most four requests and calls
    at most four helpers, whatever the feeds and the helpers do; a call
    of [fetchIncidents] issues exactly one request. *)
Theorem rail_run_bounded :
  forall (wmataApiKey : value) (U : Util) (net : Net) (station : string)
         (t : trace),
    (exists ext,
        snd (fetchTrainTimetable wmataApiKey U net station t)
        = (t ++ ext)%list
        /\ countEvents isFetch ext <= 4
        /\ countEvents isCall ext <= 4)
    /\ (forall transport,
           snd (fetchIncidents wmataApiKey net transport t)
           = (t ++ [Fetch (incidentsUrl wmataApiKey transport)])%list).
Proof.
  intros key U net station t. split.
  - destruct (fetchTrainTimetable_atMost isFetch true false
                (fun _ => eq_refl) (fun _ _ => eq_refl) key U net station t)
      as (ext & E & F).
    destruct (fetchTrainTimetable_atMost isCall false true
                (fun _ => eq_refl) (fun _ _ => eq_refl) key U net station t)
      as (ext' & E' & F').
    rewrite E in E'. apply app_inv_head in E'. subst ext'.
    exists ext. simpl in F, F'. auto.
  - intros transport. rewrite fetchIncidents_run. reflexivity.
Qed.

(** ** Where a rail run goes *)

Ltac rail_event :=
  solve [ simpl; auto
        | simpl; right; left; eexists; reflexivity
        | simpl; right; right; eexists; reflexivity
        | simpl; auto 6 ].

Ltac rail_step :=
  first
    [ apply emitsOnly_ret
    | apply emitsOnly_throw
    | apply emitsOnly_lift
    | apply emitsOnly_fetchJson; rail_event
    | apply emitsOnly_callHelper; rail_event
    | apply emitsOnly_filterM; intros
    | apply emitsOnly_tryCatch; [| intros]
    | apply emitsOnly_bind; [| intros]
    | apply emitsOnly_if ].

Lemma fetchTrainTimetable_railEvents wmataApiKey U net station :
  emitsOnly (railEvent wmataApiKey)
    (fetchTrainTimetable wmataApiKey U net station).
Proof.
  unfold fetchTrainTimetable, resolveStation, stationTimetable,
    mergePlatforms, arrayFilter, lineCodes, fetchIncidents, keepPrediction.
  repeat rail_step.
  match goal with
  | |- emitsOnly _ (match ?v with _ => _ end) => destruct v
  end; repeat rail_step.
Qed.

(** X14: a run of the rail path only requests the station list, station
    predictions and incidents, and only calls the four helpers it
    imports; it never requests bus predictions. *)
Theorem rail_run_stays_on_rail :
  forall (wmataApiKey : value) (U : Util) (net : Net) (station : string)
         (t : trace),
    (exists ext,
        snd (fetchTrainTimetable wmataApiKey U net station t)
        = (t ++ ext)%list
        /\ Forall (railEvent wmataApiKey) ext)
    /\ (forall stopId,
           ~ railEvent wmataApiKey
               (Fetch (busPredictionUrl wmataApiKey stopId))).
Proof.
  intros key U net station t. split.
  - apply fetchTrainTimetable_railEvents.
  - intros stopId.
    unfold railEvent, busPredictionUrl, stationsUrl, predictionUrl,
      incidentsUrl, rootUrl.
    simpl. intros [H | [[code H] | [transport H]]]; discriminate H.
Qed.
